(** * Audio duration nodes: a shallow embedding of [audio_duration_node.py]

    The module defines two duration handlers for a node-graph host,
    [GetAudioDuration.get_duration] (from a file path) and
    [GetAudioDurationFromAudio.get_duration] (from an in-memory audio value).

    Modelling choices, all of them local to this file:
    - Python values are the inductive type [pyval]; a tensor or an array is
      known by its shape only, since the handlers read nothing else of it.
    - A Python float is held as the exact rational it stands for ([Q]);
      [int(x)] truncates toward zero.  Doubles are not computed: [n / q] for
      a float [q] is a field of the environment, and [n / r] for two ints is
      the exact quotient, which the double of Python agrees with, once
      truncated, for every count [n] below [2 ^ 53].  The statements about
      measured seconds carry that bound.
    - A Python string is held as its UTF-8 bytes.
    - A call either returns or raises an instance of [Exception]: [outcome].
      The handlers catch [Exception], so asynchronous [BaseException]s
      (KeyboardInterrupt, SystemExit) are outside the embedding.
    - The file system and the three decoding libraries are the fields of an
      environment [Env]; nothing is assumed about what they return.
    - Messages printed to [sys.stderr] are not modelled. *)

From Stdlib Require Import List ZArith NArith String Ascii QArith Qround Bool Lia.
From Stdlib Require Import DecimalString DecimalPos DecimalZ.
Import ListNotations.

Local Open Scope string_scope.
Local Open Scope Z_scope.

(** ** Python values *)

(** A mapping is its list of items in insertion order: the handler iterates
    over [audio.items()], so the order is observable.  Keys are strings. *)
#[warnings="-register-all"]
Inductive pyval : Type :=
| PNone
| PInt (z : Z)
| PFloat (q : Q)
| PStr (s : string)
| PTensor (shape : list N)     (* torch.Tensor *)
| PNdarray (shape : list N)    (* numpy.ndarray *)
| PList (l : list pyval)
| PTuple (l : list pyval)
| PDict (items : list (string * pyval)).

(** [type(v).__name__] and [str(type(v))]. *)
Definition type_name (v : pyval) : string :=
  match v with
  | PNone => "NoneType"
  | PInt _ => "int"
  | PFloat _ => "float"
  | PStr _ => "str"
  | PTensor _ => "Tensor"
  | PNdarray _ => "ndarray"
  | PList _ => "list"
  | PTuple _ => "tuple"
  | PDict _ => "dict"
  end.

Definition type_repr (v : pyval) : string :=
  match v with
  | PTensor _ => "<class 'torch.Tensor'>"
  | PNdarray _ => "<class 'numpy.ndarray'>"
  | _ => "<class '" ++ type_name v ++ "'>"
  end.

(** ** Exceptions and outcomes *)

Record exn : Type := { exn_class : string; exn_msg : string }.

Inductive outcome (A : Type) : Type :=
| Ret (a : A)
| Raise (e : exn).
Arguments Ret {A} a.
Arguments Raise {A} e.

Definition bind {A B : Type} (c : outcome A) (k : A -> outcome B) : outcome B :=
  match c with
  | Ret a => k a
  | Raise e => Raise e
  end.

Notation "x <- c ;; k" := (bind c (fun x => k))
  (at level 61, c at next level, right associativity).
Notation "' pat <- c ;; k" := (bind c (fun x => match x with pat => k end))
  (at level 61, pat pattern, c at next level, right associativity).

Definition FileNotFoundError (m : string) : exn := {| exn_class := "FileNotFoundError"; exn_msg := m |}.
Definition ValueError (m : string) : exn := {| exn_class := "ValueError"; exn_msg := m |}.
Definition TypeError (m : string) : exn := {| exn_class := "TypeError"; exn_msg := m |}.
Definition IndexError (m : string) : exn := {| exn_class := "IndexError"; exn_msg := m |}.
Definition AttributeError (m : string) : exn := {| exn_class := "AttributeError"; exn_msg := m |}.
Definition RuntimeError (m : string) : exn := {| exn_class := "RuntimeError"; exn_msg := m |}.
Definition ZeroDivisionError (m : string) : exn := {| exn_class := "ZeroDivisionError"; exn_msg := m |}.

(** What both handlers return: [(duration_seconds, duration_text)]. *)
Definition result : Type := Z * string.

(** An inner [try: ... return ... except Exception: print(...)]: the value is
    returned, a failure is dropped and control goes on ([None]). *)
Definition attempt {A : Type} (c : outcome A) : option A :=
  match c with
  | Ret a => Some a
  | Raise _ => None
  end.

(** ** Numbers and text *)

(** [str(z)] for a Python int. *)
Definition str_of_int (z : Z) : string := NilZero.string_of_int (Z.to_int z).

(** The f-string [f"{duration_seconds} 秒"]. *)
Definition duration_text (seconds : Z) : string := str_of_int seconds ++ " 秒".

(** [int(x)] on a float: truncation toward zero. *)
Definition int_of_float (q : Q) : Z := Z.quot (Qnum q) (Zpos (Qden q)).

(** ** Environment: file system and decoding libraries *)

(** [librosa], when it could be imported. *)
Record Librosa : Type := {
  (* librosa.load(path, sr=None): the array y (its shape) and the rate sr *)
  lr_load : string -> outcome (list N * pyval);
  (* librosa.get_duration(y=y, sr=sr): seconds, a float *)
  lr_get_duration : list N -> pyval -> outcome Q
}.

(** [soundfile], when it could be imported. *)
Record Soundfile : Type := {
  (* sf.read(path): the array data (its shape) and the integer samplerate *)
  sf_read : string -> outcome (list N * Z)
}.

Record Env : Type := {
  (* os.path.exists *)
  path_exists : string -> bool;
  (* torchaudio.load(path): the tensor waveform (its shape) and the integer sample_rate *)
  torchaudio_load : string -> outcome (list N * Z);
  (* the module-level names librosa and sf: None after a failed import *)
  librosa : option Librosa;
  sf : option Soundfile;
  (* int(n / rate) when rate is a tensor or an array: it depends on the
     elements of rate, which the embedding does not hold *)
  int_truediv_array : Z -> pyval -> outcome Z;
  (* int(n / q) for a float q other than zero: the quotient is rounded to a
     double before int truncates it, and int of an infinity raises *)
  int_truediv_float : Z -> Q -> outcome Z;
  (* str(v) *)
  py_str : pyval -> string
}.

(** The same environment with other [librosa], [sf] and [torchaudio]
    modules. *)
Definition with_librosa (l : option Librosa) (env : Env) : Env :=
  {| path_exists := path_exists env; torchaudio_load := torchaudio_load env;
     librosa := l; sf := sf env;
     int_truediv_array := int_truediv_array env;
     int_truediv_float := int_truediv_float env; py_str := py_str env |}.

Definition with_sf (s : option Soundfile) (env : Env) : Env :=
  {| path_exists := path_exists env; torchaudio_load := torchaudio_load env;
     librosa := librosa env; sf := s;
     int_truediv_array := int_truediv_array env;
     int_truediv_float := int_truediv_float env; py_str := py_str env |}.

Definition with_torchaudio (t : string -> outcome (list N * Z)) (env : Env) : Env :=
  {| path_exists := path_exists env; torchaudio_load := t;
     librosa := librosa env; sf := sf env;
     int_truediv_array := int_truediv_array env;
     int_truediv_float := int_truediv_float env; py_str := py_str env |}.

(** [int(n / rate)] for an int [n]: true division, then truncation.  For
    an int rate the quotient is the exact one: Python rounds [n / r] to the
    nearest double first, and for [0 <= n < 2 ^ 53] the double lies between
    the truncated quotient and the next integer, which it does not reach. *)
Definition int_truediv (env : Env) (n : Z) (rate : pyval) : outcome Z :=
  match rate with
  | PInt r =>
      if r =? 0 then Raise (ZeroDivisionError "division by zero")
      else Ret (Z.quot n r)
  | PFloat q =>
      if Qnum q =? 0 then Raise (ZeroDivisionError "float division by zero")
      else int_truediv_float env n q
  | PTensor _ | PNdarray _ => int_truediv_array env n rate
  | _ => Raise (TypeError ("unsupported operand type(s) for /: 'int' and '"
                           ++ type_name rate ++ "'"))
  end.

(** [duration_seconds = int(n / rate); return (duration_seconds, f"...")]. *)
Definition seconds_result (env : Env) (n : N) (rate : pyval) : outcome result :=
  duration_seconds <- int_truediv env (Z.of_N n) rate ;;
  Ret (duration_seconds, duration_text duration_seconds).

(** The [except Exception as e] of both handlers:
    [return (0, "错误: " + str(e))]. *)
Definition handler (c : outcome result) : outcome result :=
  match c with
  | Ret r => Ret r
  | Raise e => Ret (0, "错误: " ++ exn_msg e)
  end.

(** ** GetAudioDuration *)

Module GetAudioDuration.

(** [waveform.size(1)]. *)
Definition size1 (shape : list N) : outcome N :=
  match nth_error shape 1 with
  | Some n => Ret n
  | None => Raise (IndexError "Dimension out of range")
  end.

(** [len(data)]. *)
Definition len (shape : list N) : outcome N :=
  match shape with
  | n :: _ => Ret n
  | [] => Raise (TypeError "len() of unsized object")
  end.

Definition try_torchaudio (env : Env) (audio_file : string) : outcome result :=
  '(waveform, sample_rate) <- torchaudio_load env audio_file ;;
  n <- size1 waveform ;;
  seconds_result env n (PInt sample_rate).

Definition try_librosa (L : Librosa) (audio_file : string) : outcome result :=
  '(y, sr) <- lr_load L audio_file ;;
  d <- lr_get_duration L y sr ;;
  Ret (int_of_float d, duration_text (int_of_float d)).

Definition try_soundfile (env : Env) (F : Soundfile) (audio_file : string)
  : outcome result :=
  '(data, samplerate) <- sf_read F audio_file ;;
  n <- len data ;;
  seconds_result env n (PInt samplerate).

(** The three guarded [try] blocks, in the order of the source.  [None]:
    the backend is absent or its block failed. *)
Definition backends (env : Env) (audio_file : string) : list (option result) :=
  [ attempt (try_torchaudio env audio_file);
    match librosa env with
    | Some L => attempt (try_librosa L audio_file)
    | None => None
    end;
    match sf env with
    | Some F => attempt (try_soundfile env F audio_file)
    | None => None
    end ].

(** Each block returns as soon as it has a value. *)
Fixpoint first_success (l : list (option result)) : option result :=
  match l with
  | [] => None
  | Some r :: _ => Some r
  | None :: tl => first_success tl
  end.

(** The body of the outer [try]. *)
Definition body (env : Env) (audio_file : string) : outcome result :=
  if negb (path_exists env audio_file)
  then Raise (FileNotFoundError ("文件不存在: " ++ audio_file))
  else match first_success (backends env audio_file) with
       | Some r => Ret r
       | None => Raise (ValueError ("无法加载音频文件: " ++ audio_file))
       end.

Definition get_duration (env : Env) (audio_file : string) : outcome result :=
  handler (body env audio_file).

End GetAudioDuration.

(** ** GetAudioDurationFromAudio *)

Module GetAudioDurationFromAudio.

(** A statement that may [return]: [None] when control falls through to the
    next statement, [Some c] when the handler body ends with [c]. *)
Definition strategy : Type := option (outcome result).

Definition orelse (a b : strategy) : strategy :=
  match a with
  | Some c => Some c
  | None => b
  end.

(** [audio[k]] guarded by [k in audio]. *)
Fixpoint lookup {A : Type} (k : string) (items : list (string * A)) : option A :=
  match items with
  | [] => None
  | (k', v) :: tl => if String.eqb k k' then Some v else lookup k tl
  end.

(** [key in keys] for a list of strings. *)
Definition mem (key : string) (keys : list string) : bool :=
  existsb (String.eqb key) keys.

(** [samples.size(-1)] on a tensor, [samples.shape[-1]] on an array. *)
Definition last_axis (v : pyval) (shape : list N) : outcome N :=
  match rev shape with
  | n :: _ => Ret n
  | [] =>
      match v with
      | PTensor _ =>
          Raise (IndexError "Dimension specified as -1 but tensor has no dimensions")
      | _ => Raise (IndexError "tuple index out of range")
      end
  end.

(** [isinstance(v, torch.Tensor) or isinstance(v, np.ndarray)]. *)
Definition is_buffer (v : pyval) : bool :=
  match v with
  | PTensor _ | PNdarray _ => true
  | _ => false
  end.

(** Neither a tensor, an array, a mapping nor a tuple: a value in which the
    handler finds nothing to measure. *)
Definition is_plain (v : pyval) : bool :=
  match v with
  | PTensor _ | PNdarray _ | PDict _ | PTuple _ => false
  | _ => true
  end.

(** The recurring [if isinstance(data, torch.Tensor): ... return ...
    elif isinstance(data, np.ndarray): ... return ...]: falls through for any
    other type. *)
Definition buffer_duration (env : Env) (data rate : pyval) : strategy :=
  match data with
  | PTensor shape | PNdarray shape =>
      Some (n <- last_axis data shape ;; seconds_result env n rate)
  | _ => None
  end.

(** Lines 103-112: the [samples] / [sample_rate] pair. *)
Definition direct_pair (env : Env) (items : list (string * pyval)) : strategy :=
  match lookup "samples" items, lookup "sample_rate" items with
  | Some samples, Some sample_rate => buffer_duration env samples sample_rate
  | _, _ => None
  end.

(** Lines 115-116: [return self.get_duration(audio["audio"])].  [rec] holds,
    for every item of the mapping, the outcome of the recursive call on its
    value. *)
Definition audio_key (rec : list (string * outcome result)) : strategy :=
  lookup "audio" rec.

(** Lines 119-120. *)
Definition filename_key (env : Env) (items : list (string * pyval)) : strategy :=
  match lookup "filename" items with
  | Some (PStr p) => Some (GetAudioDuration.get_duration env p)
  | _ => None
  end.

Definition possible_keys : list string :=
  ["samplerate"; "rate"; "sr"; "audio_data"; "waveform"].

(** Lines 129-137: the inner loop over data keys, for a rate already read. *)
Fixpoint scan_data (env : Env) (items : list (string * pyval)) (sample_rate : pyval)
  (data_keys : list string) : strategy :=
  match data_keys with
  | [] => None
  | data_key :: tl =>
      match lookup data_key items with
      | Some data =>
          orelse (buffer_duration env data sample_rate)
                 (scan_data env items sample_rate tl)
      | None => scan_data env items sample_rate tl
      end
  end.

(** Lines 141-149: the inner loop over rate keys, for data already read. *)
Fixpoint scan_rate (env : Env) (items : list (string * pyval)) (data : pyval)
  (rate_keys : list string) : strategy :=
  match rate_keys with
  | [] => None
  | rate_key :: tl =>
      match lookup rate_key items with
      | Some sample_rate =>
          orelse (buffer_duration env data sample_rate)
                 (scan_rate env items data tl)
      | None => scan_rate env items data tl
      end
  end.

(** Lines 124-149: the loop over [possible_keys]. *)
Fixpoint scan_keys (env : Env) (items : list (string * pyval)) (keys : list string)
  : strategy :=
  match keys with
  | [] => None
  | key :: tl =>
      orelse
        match lookup key items with
        | Some v =>
            if mem key ["samplerate"; "rate"; "sr"]
            then scan_data env items v ["data"; "samples"; "audio"; "waveform"]
            else if mem key ["audio_data"; "waveform"]
            then scan_rate env items v ["samplerate"; "rate"; "sr"; "sample_rate"]
            else None
        | None => None
        end
        (scan_keys env items tl)
  end.

(** The value under the first key of [keys] that the mapping holds. *)
Fixpoint first_present (items : list (string * pyval)) (keys : list string)
  : option pyval :=
  match keys with
  | [] => None
  | key :: tl =>
      match lookup key items with
      | Some v => Some v
      | None => first_present items tl
      end
  end.

(** The first tensor or array held under one of [keys], in their order. *)
Fixpoint first_buffer_under (items : list (string * pyval)) (keys : list string)
  : option pyval :=
  match keys with
  | [] => None
  | key :: tl =>
      match lookup key items with
      | Some v => if is_buffer v then Some v else first_buffer_under items tl
      | None => first_buffer_under items tl
      end
  end.

(** Lines 152-168: the loop over [audio.items()].  A nested mapping is
    accepted when its own result has positive seconds; a 2-tuple is read as
    [(samples, rate)], and an exception there is swallowed by the bare
    [except: continue]. *)
Fixpoint explore (env : Env) (items : list (string * pyval))
  (rec : list (string * outcome result)) : strategy :=
  match items, rec with
  | (_, v) :: tl, (_, sub) :: rtl =>
      match v with
      | PDict _ =>
          match sub with
          | Ret r => if 0 <? fst r then Some (Ret r) else explore env tl rtl
          | Raise e => Some (Raise e)
          end
      | PTuple [samples; rate] =>
          match buffer_duration env samples rate with
          | Some (Ret r) => Some (Ret r)
          | _ => explore env tl rtl
          end
      | _ => explore env tl rtl
      end
  | _, _ => None
  end.

(** Lines 114-168: what follows the [samples] / [sample_rate] pair. *)
Definition after_direct_pair (env : Env) (items : list (string * pyval))
  (rec : list (string * outcome result)) : strategy :=
  orelse (audio_key rec)
 (orelse (filename_key env items)
 (orelse (scan_keys env items possible_keys)
         (explore env items rec))).

(** Lines 101-168: everything under [if isinstance(audio, dict)]. *)
Definition structural (env : Env) (items : list (string * pyval))
  (rec : list (string * outcome result)) : strategy :=
  orelse (direct_pair env items) (after_direct_pair env items rec).

(** Lines 180-188: the first tensor or array among the values of a mapping,
    the [else] of the [for] raising when there is none. *)
Fixpoint first_buffer (items : list (string * pyval)) : option (list N) :=
  match items with
  | [] => None
  | (_, PTensor shape) :: _ => Some shape
  | (_, PNdarray shape) :: _ => Some shape
  | _ :: tl => first_buffer tl
  end.

(** Lines 191-195: the default rate, or the first rate key of a mapping. *)
Fixpoint rate_or_default (items : list (string * pyval)) (keys : list string)
  : pyval :=
  match keys with
  | [] => PInt 44100
  | key :: tl =>
      match lookup key items with
      | Some sample_rate => sample_rate
      | None => rate_or_default items tl
      end
  end.

(** Lines 198-200: [if audio_np.ndim > 1: audio_np = audio_np[0]]. *)
Definition first_channel (shape : list N) : outcome (list N) :=
  match shape with
  | d :: (_ :: _) as rest =>
      if (d =? 0)%N
      then Raise (IndexError "index 0 is out of bounds for axis 0 with size 0")
      else Ret rest
  | _ => Ret shape
  end.

(** Lines 198-203. *)
Definition estimate (L : Librosa) (shape : list N) (sample_rate : pyval)
  : outcome result :=
  audio_np <- first_channel shape ;;
  d <- lr_get_duration L audio_np sample_rate ;;
  Ret (int_of_float d, duration_text (int_of_float d)).

(** Lines 172-203, the body of the [try] under [if librosa is not None].
    - A tensor is converted, and then [key in audio] is
      [Tensor.__contains__] on a string, which torch answers with a
      RuntimeError.
    - An array has [__array__]; [key in audio] compares a string with its
      elements and is False, so the default rate stays.
    - A mapping is searched for its first tensor or array.
    - Anything else has no [items]. *)
Definition last_resort (L : Librosa) (audio : pyval) : outcome result :=
  match audio with
  | PTensor _ =>
      Raise (RuntimeError
        "Tensor.__contains__ only supports Tensor or scalar, but you passed in a <class 'str'>.")
  | PNdarray shape => estimate L shape (PInt 44100)
  | PDict items =>
      match first_buffer items with
      | Some shape =>
          estimate L shape
            (rate_or_default items ["sample_rate"; "samplerate"; "rate"; "sr"])
      | None => Raise (ValueError "无法将音频转换为 numpy 数组")
      end
  | _ =>
      Raise (AttributeError
        ("'" ++ type_name audio ++ "' object has no attribute 'items'"))
  end.

(** [list(audio.keys())]. *)
Definition keys_list (items : list (string * pyval)) : pyval :=
  PList (map (fun kv => PStr (fst kv)) items).

(** A byte [10xxxxxx], which continues a character of several bytes. *)
Definition is_continuation (c : ascii) : bool :=
  match c with
  | Ascii _ _ _ _ _ _ false true => true
  | _ => false
  end.

(** [s[:n]]: the first [n] characters of a string, each with all of its
    bytes. *)
Fixpoint take_chars (n : nat) (s : string) : string :=
  match s with
  | EmptyString => EmptyString
  | String c tl =>
      if is_continuation c then String c (take_chars n tl)
      else match n with
           | O => EmptyString
           | S m => String c (take_chars m tl)
           end
  end.

(** Line 208: the message of the final [ValueError],
    [f"... {type(audio)}, 内容: {list(audio.keys()) if isinstance(audio, dict)
    else str(audio)[:50]}"]. *)
Definition unresolved (env : Env) (audio : pyval) : exn :=
  ValueError ("无法解析音频格式: " ++ type_repr audio ++ ", 内容: " ++
              match audio with
              | PDict items => py_str env (keys_list items)
              | _ => take_chars 50 (py_str env audio)
              end).

(** Lines 170-208: what follows the structural strategies. *)
Definition fallback (env : Env) (audio : pyval) : outcome result :=
  match match librosa env with
        | Some L => attempt (last_resort L audio)
        | None => None
        end
  with
  | Some r => Ret r
  | None => Raise (unresolved env audio)
  end.

(** The body of the outer [try], given the outcomes [rec] of the recursive
    calls on the values of a mapping. *)
Definition body (env : Env) (audio : pyval)
  (rec : list (string * outcome result)) : outcome result :=
  match match audio with
        | PDict items => structural env items rec
        | _ => None
        end
  with
  | Some c => c
  | None => fallback env audio
  end.

(** The handler.  It calls itself on values of the mapping only, so the
    recursion is structural; the calls are gathered in the list [rec], one
    per item and in the order of the items. *)
Fixpoint get_duration (env : Env) (audio : pyval) {struct audio} : outcome result :=
  handler
    (body env audio
       match audio with
       | PDict items =>
           (fix each (l : list (string * pyval)) : list (string * outcome result) :=
              match l with
              | [] => []
              | (k, v) :: tl => (k, get_duration env v) :: each tl
              end) items
       | _ => []
       end).

(** The list [rec] of [get_duration], as a function of its own. *)
Definition calls (env : Env) (items : list (string * pyval))
  : list (string * outcome result) :=
  map (fun kv => (fst kv, get_duration env (snd kv))) items.

(** The calls made for [audio]: none unless it is a mapping. *)
Definition calls_of (env : Env) (audio : pyval) : list (string * outcome result) :=
  match audio with
  | PDict items => calls env items
  | _ => []
  end.

(** Lines 103-149 return nothing for this mapping: the [samples] /
    [sample_rate] pair, the [audio] key, the [filename] key and the scan of
    key names do not apply, and the loop over the values is reached. *)
Definition reaches_values (env : Env) (items : list (string * pyval)) : Prop :=
  direct_pair env items = None /\
  lookup "audio" items = None /\
  filename_key env items = None /\
  scan_keys env items possible_keys = None.

(** Lines 101-168 return nothing for this input, and line 171 is reached. *)
Definition reaches_last_resort (env : Env) (audio : pyval) : Prop :=
  match audio with
  | PDict items => structural env items (calls env items) = None
  | _ => True
  end.

(** A tuple among the values from which lines 157-168 return nothing: it
    has not two elements, or its first element is neither a tensor nor an
    array, or measuring it raises. *)
Definition skipped_tuple (env : Env) (l : list pyval) : Prop :=
  List.length l <> 2%nat \/
  exists samples rate, l = [samples; rate] /\
    (is_buffer samples = false \/
     exists e, buffer_duration env samples rate = Some (Raise e)).

(** A value that the loop over the values passes over: neither a mapping
    nor a tuple, a mapping whose own result has no positive seconds, or a
    tuple that is skipped. *)
Definition passed_over (env : Env) (v : pyval) : Prop :=
  is_plain v = true \/
  (exists nested r, v = PDict nested /\ get_duration env v = Ret r /\ fst r <= 0) \/
  (exists l, v = PTuple l /\ skipped_tuple env l).

End GetAudioDurationFromAudio.

(** ** Inputs without negative numbers *)

(** No negative number occurs in [v]: no rate found in it is negative. *)
Fixpoint no_negative (v : pyval) : bool :=
  match v with
  | PInt z => 0 <=? z
  | PFloat q => 0 <=? Qnum q
  | PList l | PTuple l => forallb no_negative l
  | PDict items => forallb (fun kv => no_negative (snd kv)) items
  | _ => true
  end.

(** The libraries report no negative rate and no negative duration. *)
Record env_no_negative (env : Env) : Prop := {
  torchaudio_rate : forall p shape r,
    torchaudio_load env p = Ret (shape, r) -> 0 <= r;
  librosa_rate : forall L p y sr,
    librosa env = Some L -> lr_load L p = Ret (y, sr) -> no_negative sr = true;
  librosa_duration : forall L y sr d,
    librosa env = Some L -> no_negative sr = true ->
    lr_get_duration L y sr = Ret d -> 0 <= Qnum d;
  soundfile_rate : forall F p shape r,
    sf env = Some F -> sf_read F p = Ret (shape, r) -> 0 <= r;
  array_rate : forall n rate z,
    0 <= n -> int_truediv_array env n rate = Ret z -> 0 <= z;
  float_rate : forall n q z,
    0 <= n -> 0 <= Qnum q -> int_truediv_float env n q = Ret z -> 0 <= z
}.

(** A call that, when it returns, returns non-negative seconds. *)
Definition nonneg_outcome (c : outcome result) : Prop :=
  forall r, c = Ret r -> 0 <= fst r.

Definition nonneg_strategy (s : option (outcome result)) : Prop :=
  forall c, s = Some c -> nonneg_outcome c.

(** ** Sample environments

    Concrete file systems and libraries, on which the statements below are
    evaluated. *)

(** A [librosa] whose [get_duration] divides the length of the last axis by
    an integer rate, and which loads nothing. *)
Definition sample_librosa : Librosa :=
  {| lr_load := fun _ => Raise (RuntimeError "no backend");
     lr_get_duration := fun shape sr =>
       match rev shape, sr with
       | n :: _, PInt r =>
           if r =? 0 then Raise (ZeroDivisionError "division by zero")
           else Ret (Z.of_N n # Z.to_pos r)
       | _, _ => Raise (TypeError "invalid audio")
       end |}.

(** A [str] for the samples: a list is written with its strings in single
    quotes, as Python writes strings without quote, backslash or control
    character, and any other value by the name of its type. *)
Definition sample_repr (v : pyval) : string :=
  match v with
  | PStr k => "'" ++ k ++ "'"
  | _ => type_name v
  end.

Definition sample_str (v : pyval) : string :=
  match v with
  | PList l => "[" ++ String.concat ", " (map sample_repr l) ++ "]"
  | _ => type_name v
  end.

(** [int(n / q)] for the samples: a float that is a whole number divides a
    count below [2 ^ 53] as the int does; the samples divide by no other
    float, and the field gives no quotient there. *)
Definition sample_truediv_float (n : Z) (q : Q) : outcome Z :=
  if (Qden (Qred q) =? 1)%positive && (0 <=? n) && (n <? 2 ^ 53)
  then Ret (Z.quot n (Qnum (Qred q)))
  else Raise (RuntimeError "a quotient that the samples do not hold").

(** No file exists and no optional library is installed. *)
Definition bare_env : Env :=
  {| path_exists := fun _ => false;
     torchaudio_load := fun _ => Raise (RuntimeError "no such file");
     librosa := None;
     sf := None;
     int_truediv_array := fun _ _ =>
       Raise (TypeError "only one element tensors can be converted to Python scalars");
     int_truediv_float := sample_truediv_float;
     py_str := sample_str |}.

Definition mem_paths (p : string) : bool :=
  existsb (String.eqb p) ["a.wav"; "b.mp3"; "c.ogg"].

(** Three files: [a.wav] is decoded by torchaudio (two channels of 100000
    samples at 44100 Hz), [b.mp3] only by librosa (66150 samples at 22050 Hz)
    and [c.ogg] only by soundfile (48000 frames at 16000 Hz). *)
Definition studio_env : Env :=
  {| path_exists := fun p => mem_paths p;
     torchaudio_load := fun p =>
       if String.eqb p "a.wav" then Ret ([2; 100000]%N, 44100)
       else Raise (RuntimeError "unsupported format");
     librosa := Some
       {| lr_load := fun p =>
            if String.eqb p "b.mp3" then Ret ([66150]%N, PInt 22050)
            else Raise (RuntimeError "unsupported format");
          lr_get_duration := lr_get_duration sample_librosa |};
     sf := Some
       {| sf_read := fun p =>
            if String.eqb p "c.ogg" then Ret ([48000; 2]%N, 16000)
            else Raise (RuntimeError "unsupported format") |};
     int_truediv_array := int_truediv_array bare_env;
     int_truediv_float := int_truediv_float bare_env;
     py_str := py_str bare_env |}.

(** ** DisplayIntegerValue *)

Module DisplayIntegerValue.

(** The payload [{"ui": {"text": [...]}}] handed to the host. *)
Record ui_payload : Type := { ui_text : list string }.

(** [text = f"{prefix}{value}"; return {"ui": {"text": [text]}}], for an
    INT [value] and a STRING [prefix]. *)
Definition display_value (value : Z) (prefix : string) : ui_payload :=
  {| ui_text := [prefix ++ str_of_int value] |}.

End DisplayIntegerValue.

(** ** The two shapes of a result *)

(** What a handler returns is either a duration with its own label, or the
    zero of an error with the error text. *)
Definition well_formed_result (r : result) : Prop :=
  snd r = duration_text (fst r) \/
  (fst r = 0 /\ exists m, snd r = "错误: " ++ m).

(** A call that, when it returns, returns a duration with its own label. *)
Definition labelled_outcome (c : outcome result) : Prop :=
  forall r, c = Ret r -> well_formed_result r.

Definition labelled_strategy (s : option (outcome result)) : Prop :=
  forall c, s = Some c -> labelled_outcome c.

(** * Properties *)

Module GDA := GetAudioDurationFromAudio.

(** ** Arithmetic of [int(n / r)] *)

(** On a non-negative count and a positive rate, truncation is the floor. *)
Lemma quot_is_floor (n r : Z) : 0 <= n -> 0 < r -> Z.quot n r = n / r.
Proof. intros Hn Hr. now apply Z.quot_div_nonneg. Qed.


Lemma seconds_result_int (env : Env) (n : N) (r : Z) :
  r <> 0 ->
  seconds_result env n (PInt r)
  = Ret (Z.quot (Z.of_N n) r, duration_text (Z.quot (Z.of_N n) r)).
Proof.
  intros Hr. unfold seconds_result, int_truediv.
  destruct (Z.eqb_spec r 0) as [E | _]; [contradiction | reflexivity].
Qed.

Lemma seconds_result_floor (env : Env) (n : N) (r : Z) :
  0 < r ->
  seconds_result env n (PInt r)
  = Ret (Z.of_N n / r, duration_text (Z.of_N n / r)).
Proof.
  intros Hr. rewrite seconds_result_int by lia.
  now rewrite quot_is_floor by lia.
Qed.

(** ** The recursion of [GDA.get_duration] *)

Lemma calls_fix (env : Env) (items : list (string * pyval)) :
  (fix each (l : list (string * pyval)) : list (string * outcome result) :=
     match l with
     | [] => []
     | (k, v) :: tl => (k, GDA.get_duration env v) :: each tl
     end) items = GDA.calls env items.
Proof.
  induction items as [| [k v] tl IH]; [reflexivity |].
  cbn [GDA.calls map fst snd]. f_equal. exact IH.
Qed.

Lemma get_duration_unfold (env : Env) (audio : pyval) :
  GDA.get_duration env audio
  = handler (GDA.body env audio (GDA.calls_of env audio)).
Proof.
  destruct audio; try reflexivity.
  cbn [GDA.get_duration GDA.calls_of]. now rewrite calls_fix.
Qed.

Lemma handler_returns (c : outcome result) : exists r, handler c = Ret r.
Proof. destruct c as [r | e]; cbn; eauto. Qed.

Lemma last_axis_snoc (v : pyval) (front : list N) (n : N) :
  GDA.last_axis v (front ++ [n]) = Ret n.
Proof. unfold GDA.last_axis. now rewrite rev_unit. Qed.

Lemma handlers_returning (env : Env) (audio_file : string) (audio : pyval) :
  (exists r, GetAudioDuration.get_duration env audio_file = Ret r) /\
  (exists r, GDA.get_duration env audio = Ret r).
Proof.
  split.
  - apply handler_returns.
  - rewrite get_duration_unfold. apply handler_returns.
Qed.

(** ** Nothing escapes a handler *)

(** C1.  Whatever the file system, the libraries and the input are, both
    handlers return a tuple and never raise.  An exception of the body,
    whichever it is, becomes the tuple [(0, "错误: " + str(e))]; so do the
    division by a zero rate and the division by a rate that is no number. *)
Theorem handlers_never_raise (env : Env) (audio_file : string) (audio : pyval) :
  (exists r, GetAudioDuration.get_duration env audio_file = Ret r) /\
  (exists r, GDA.get_duration env audio = Ret r) /\
  GetAudioDuration.get_duration env audio_file
    = match GetAudioDuration.body env audio_file with
      | Ret r => Ret r
      | Raise e => Ret (0, "错误: " ++ exn_msg e)
      end /\
  GDA.get_duration env audio
    = match GDA.body env audio (GDA.calls_of env audio) with
      | Ret r => Ret r
      | Raise e => Ret (0, "错误: " ++ exn_msg e)
      end /\
  (forall front n,
     GDA.get_duration env
       (PDict [("samples", PTensor (front ++ [n])); ("sample_rate", PInt 0)])
     = Ret (0, "错误: division by zero")) /\
  (forall front n s,
     GDA.get_duration env
       (PDict [("samples", PNdarray (front ++ [n])); ("sample_rate", PStr s)])
     = Ret (0, "错误: unsupported operand type(s) for /: 'int' and 'str'")).
Proof.
  repeat split.
  - apply handler_returns.
  - rewrite get_duration_unfold. apply handler_returns.
  - apply get_duration_unfold.
  - intros front n. rewrite get_duration_unfold.
    cbn [GDA.calls_of GDA.body GDA.structural GDA.direct_pair GDA.lookup
         String.eqb Ascii.eqb Bool.eqb GDA.buffer_duration GDA.orelse].
    now rewrite last_axis_snoc.
  - intros front n s. rewrite get_duration_unfold.
    cbn [GDA.calls_of GDA.body GDA.structural GDA.direct_pair GDA.lookup
         String.eqb Ascii.eqb Bool.eqb GDA.buffer_duration GDA.orelse].
    now rewrite last_axis_snoc.
Qed.

(** ** A path that names no file *)

(** C9.  When [os.path.exists] is false the body raises FileNotFoundError
    before any backend is tried: the result is [(0, m)] with [m] ending in
    the path, whatever torchaudio, librosa and soundfile are. *)
Theorem missing_file_is_reported (env : Env) (audio_file : string)
  (Hmissing : path_exists env audio_file = false) :
  GetAudioDuration.body env audio_file
    = Raise (FileNotFoundError ("文件不存在: " ++ audio_file)) /\
  forall t l s,
    GetAudioDuration.get_duration
      (with_torchaudio t (with_librosa l (with_sf s env))) audio_file
    = Ret (0, "错误: 文件不存在: " ++ audio_file).
Proof.
  split.
  - unfold GetAudioDuration.body. now rewrite Hmissing.
  - intros t l s. unfold GetAudioDuration.get_duration, GetAudioDuration.body.
    cbn [path_exists with_torchaudio with_librosa with_sf].
    now rewrite Hmissing.
Qed.

Lemma missing_file_is_reported_witness :
  GetAudioDuration.get_duration
    (with_torchaudio (torchaudio_load studio_env)
       (with_librosa (librosa studio_env) (with_sf (sf studio_env) bare_env)))
    "a.wav"
  = Ret (0, "错误: 文件不存在: a.wav").
Proof.
  exact (proj2 (missing_file_is_reported bare_env "a.wav" eq_refl)
           (torchaudio_load studio_env) (librosa studio_env) (sf studio_env)).
Defined.

(** ** The cascade of backends *)





(** ** The [samples] / [sample_rate] pair *)

Lemma body_direct_pair (env : Env) (items : list (string * pyval))
  (rec : list (string * outcome result)) (c : outcome result) :
  GDA.direct_pair env items = Some c ->
  GDA.body env (PDict items) rec = c.
Proof.
  intros H. unfold GDA.body, GDA.structural. now rewrite H.
Qed.

(** C3.  A mapping that holds a tensor or an array of [n] samples along its
    last axis under [samples] and a positive integer [r] under [sample_rate]
    gives [floor(n / r)] seconds; an empty buffer gives 0 seconds, and no
    error.  The count is below [2 ^ 53], where the double [n / r] of Python
    truncates to the floor of the quotient. *)
Theorem direct_pair_floor (env : Env) (items : list (string * pyval))
  (samples : pyval) (front : list N) (n : N) (r : Z)
  (Hsamples : GDA.lookup "samples" items = Some samples)
  (Hbuffer : samples = PTensor (front ++ [n]) \/ samples = PNdarray (front ++ [n]))
  (Hrate : GDA.lookup "sample_rate" items = Some (PInt r))
  (Hpos : 0 < r)
  (Hexact : Z.of_N n < 2 ^ 53) :
  GDA.get_duration env (PDict items)
    = Ret (Z.of_N n / r, str_of_int (Z.of_N n / r) ++ " 秒") /\
  (n = 0%N -> GDA.get_duration env (PDict items) = Ret (0, "0 秒")).
Proof.
  assert (H : GDA.get_duration env (PDict items)
              = Ret (Z.of_N n / r, str_of_int (Z.of_N n / r) ++ " 秒")).
  { rewrite get_duration_unfold.
    rewrite (body_direct_pair env items _
               (Ret (Z.of_N n / r, duration_text (Z.of_N n / r)))).
    - reflexivity.
    - unfold GDA.direct_pair. rewrite Hsamples, Hrate.
      destruct Hbuffer as [-> | ->]; cbn [GDA.buffer_duration];
        rewrite last_axis_snoc; cbn [bind];
        now rewrite seconds_result_floor. }
  split; [exact H |].
  intros ->. rewrite H. cbn [Z.of_N]. now rewrite Z.div_0_l by lia.
Qed.

Lemma direct_pair_floor_witness :
  GDA.get_duration bare_env
    (PDict [("samples", PTensor [1; 2; 100000]%N); ("sample_rate", PInt 44100)])
  = Ret (2, "2 秒") /\
  GDA.get_duration bare_env
    (PDict [("samples", PNdarray [2; 0]%N); ("sample_rate", PInt 44100)])
  = Ret (0, "0 秒").
Proof.
  split.
  - exact (proj1 (direct_pair_floor bare_env
                    [("samples", PTensor [1; 2; 100000]%N); ("sample_rate", PInt 44100)]
                    (PTensor [1; 2; 100000]%N) [1; 2]%N 100000%N 44100
                    eq_refl (or_introl eq_refl) eq_refl eq_refl eq_refl)).
  - exact (proj2 (direct_pair_floor bare_env
                    [("samples", PNdarray [2; 0]%N); ("sample_rate", PInt 44100)]
                    (PNdarray [2; 0]%N) [2]%N 0%N 44100
                    eq_refl (or_intror eq_refl) eq_refl eq_refl eq_refl) eq_refl).
Defined.

(** ** The [filename] key *)

Lemma lookup_calls (env : Env) (k : string) (items : list (string * pyval)) :
  GDA.lookup k (GDA.calls env items)
  = option_map (GDA.get_duration env) (GDA.lookup k items).
Proof.
  induction items as [| [k' v] tl IH]; [reflexivity |].
  cbn [GDA.calls map fst snd GDA.lookup].
  destruct (String.eqb k k'); [reflexivity | exact IH].
Qed.

Lemma handler_idem (c : outcome result) : handler (handler c) = handler c.
Proof. now destruct c. Qed.

Lemma handler_of_handler_result (env : Env) (audio : pyval) :
  handler (GDA.get_duration env audio) = GDA.get_duration env audio.
Proof. rewrite get_duration_unfold. apply handler_idem. Qed.

(** C8.  A mapping with a string under [filename], without an [audio] key
    and without the pair of [samples] and [sample_rate], gives what the file
    handler gives for that path. *)
Theorem filename_delegates (env : Env) (items : list (string * pyval))
  (p : string)
  (Hfilename : GDA.lookup "filename" items = Some (PStr p))
  (Haudio : GDA.lookup "audio" items = None)
  (Hpair : GDA.lookup "samples" items = None
           \/ GDA.lookup "sample_rate" items = None) :
  GDA.get_duration env (PDict items) = GetAudioDuration.get_duration env p.
Proof.
  rewrite get_duration_unfold.
  unfold GDA.body, GDA.structural, GDA.after_direct_pair.
  assert (Hd : GDA.direct_pair env items = None).
  { unfold GDA.direct_pair. destruct Hpair as [-> | ->]; [reflexivity |].
    now destruct (GDA.lookup "samples" items). }
  rewrite Hd. cbn [GDA.orelse GDA.calls_of]. unfold GDA.audio_key.
  rewrite lookup_calls, Haudio. cbn [option_map GDA.orelse].
  unfold GDA.filename_key. rewrite Hfilename. cbn [GDA.orelse].
  unfold GetAudioDuration.get_duration. apply handler_idem.
Qed.

Lemma filename_delegates_witness :
  GDA.get_duration studio_env (PDict [("samples", PNone); ("filename", PStr "c.ogg")])
  = GetAudioDuration.get_duration studio_env "c.ogg".
Proof.
  exact (filename_delegates studio_env
           [("samples", PNone); ("filename", PStr "c.ogg")] "c.ogg"
           eq_refl eq_refl (or_intror eq_refl)).
Defined.

(** ** The last resort *)


Lemma body_fallback (env : Env) (items : list (string * pyval)) :
  GDA.structural env items (GDA.calls env items) = None ->
  GDA.get_duration env (PDict items) = handler (GDA.fallback env (PDict items)).
Proof.
  intros H. rewrite get_duration_unfold. unfold GDA.body.
  cbn [GDA.calls_of]. now rewrite H.
Qed.



(** ** The scan of other key names *)

Lemma buffer_duration_floor (env : Env) (data : pyval) (front : list N) (n : N)
  (r : Z) :
  data = PTensor (front ++ [n]) \/ data = PNdarray (front ++ [n]) -> 0 < r ->
  GDA.buffer_duration env data (PInt r)
  = Some (Ret (Z.of_N n / r, duration_text (Z.of_N n / r))).
Proof.
  intros [-> | ->] Hr; cbn [GDA.buffer_duration]; rewrite last_axis_snoc;
    cbn [bind]; now rewrite seconds_result_floor.
Qed.

Lemma scan_data_first (env : Env) (items : list (string * pyval)) (rate : pyval)
  (keys : list string) :
  GDA.scan_data env items rate keys
  = match GDA.first_buffer_under items keys with
    | Some data => GDA.buffer_duration env data rate
    | None => None
    end.
Proof.
  induction keys as [| key tl IH]; [reflexivity |].
  cbn [GDA.scan_data GDA.first_buffer_under].
  destruct (GDA.lookup key items) as [data |]; [| exact IH].
  destruct data; cbn [GDA.is_buffer GDA.buffer_duration GDA.orelse];
    first [exact IH | reflexivity].
Qed.

Lemma scan_rate_first (env : Env) (items : list (string * pyval)) (data : pyval)
  (keys : list string) :
  GDA.scan_rate env items data keys
  = if GDA.is_buffer data
    then match GDA.first_present items keys with
         | Some rate => GDA.buffer_duration env data rate
         | None => None
         end
    else None.
Proof.
  induction keys as [| key tl IH].
  - cbn. now destruct (GDA.is_buffer data).
  - cbn [GDA.scan_rate GDA.first_present].
    destruct (GDA.lookup key items) as [rate |]; [| exact IH].
    destruct data; cbn [GDA.is_buffer GDA.buffer_duration GDA.orelse] in *;
      first [exact IH | reflexivity].
Qed.

Lemma scan_keys_unfold (env : Env) (items : list (string * pyval)) :
  GDA.scan_keys env items GDA.possible_keys
  = let by_rate key :=
        match GDA.lookup key items with
        | Some v => GDA.scan_data env items v ["data"; "samples"; "audio"; "waveform"]
        | None => None
        end in
    let by_data key :=
        match GDA.lookup key items with
        | Some v => GDA.scan_rate env items v ["samplerate"; "rate"; "sr"; "sample_rate"]
        | None => None
        end in
    GDA.orelse (by_rate "samplerate")
   (GDA.orelse (by_rate "rate")
   (GDA.orelse (by_rate "sr")
   (GDA.orelse (by_data "audio_data")
   (GDA.orelse (by_data "waveform") None)))).
Proof. reflexivity. Qed.

Lemma body_scan_keys (env : Env) (items : list (string * pyval))
  (c : outcome result) :
  GDA.direct_pair env items = None ->
  GDA.lookup "audio" items = None ->
  GDA.filename_key env items = None ->
  GDA.scan_keys env items GDA.possible_keys = Some c ->
  GDA.get_duration env (PDict items) = handler c.
Proof.
  intros Hd Ha Hf Hs. rewrite get_duration_unfold.
  unfold GDA.body, GDA.structural, GDA.after_direct_pair, GDA.audio_key.
  cbn [GDA.calls_of]. rewrite Hd, lookup_calls, Ha, Hf, Hs. reflexivity.
Qed.

Lemma by_rate_none (env : Env) (items : list (string * pyval)) (key : string)
  (data_keys : list string) :
  GDA.lookup key items = None \/ GDA.first_buffer_under items data_keys = None ->
  match GDA.lookup key items with
  | Some v => GDA.scan_data env items v data_keys
  | None => None
  end = None.
Proof.
  intros [H | H].
  - now rewrite H.
  - destruct (GDA.lookup key items); [| reflexivity].
    now rewrite scan_data_first, H.
Qed.


(** Lines 126-137: a rate key with a buffer under a data key. *)
Lemma scan_keys_by_rate (env : Env) (items : list (string * pyval))
  (data rate : pyval) :
  GDA.first_present items ["samplerate"; "rate"; "sr"] = Some rate ->
  GDA.first_buffer_under items ["data"; "samples"; "audio"; "waveform"] = Some data ->
  GDA.scan_keys env items GDA.possible_keys = GDA.buffer_duration env data rate.
Proof.
  intros Hrate Hdata.
  assert (Hsome : exists c, GDA.buffer_duration env data rate = Some c).
  { clear Hrate. revert Hdata.
    generalize ["data"; "samples"; "audio"; "waveform"].
    induction l as [| key tl IH]; [discriminate |].
    cbn [GDA.first_buffer_under]. destruct (GDA.lookup key items) as [v |]; [| exact IH].
    destruct (GDA.is_buffer v) eqn:Ev; [| exact IH].
    intros E. injection E as ->. destruct data; try discriminate Ev; cbn; eauto. }
  destruct Hsome as [c Hc].
  rewrite scan_keys_unfold. cbv beta zeta.
  cbn [GDA.first_present] in Hrate.
  destruct (GDA.lookup "samplerate" items) as [v |].
  { injection Hrate as ->. now rewrite scan_data_first, Hdata, Hc. }
  destruct (GDA.lookup "rate" items) as [v |].
  { injection Hrate as ->. now rewrite scan_data_first, Hdata, Hc. }
  destruct (GDA.lookup "sr" items) as [v |]; [| discriminate].
  injection Hrate as ->. now rewrite scan_data_first, Hdata, Hc.
Qed.

(** Lines 138-149: a buffer under a data key with a rate key, when lines
    126-137 found no pair. *)
Lemma scan_keys_by_data (env : Env) (items : list (string * pyval))
  (data rate : pyval) :
  GDA.first_present items ["samplerate"; "rate"; "sr"] = None
  \/ GDA.first_buffer_under items ["data"; "samples"; "audio"; "waveform"] = None ->
  GDA.first_buffer_under items ["audio_data"; "waveform"] = Some data ->
  GDA.first_present items ["samplerate"; "rate"; "sr"; "sample_rate"] = Some rate ->
  GDA.scan_keys env items GDA.possible_keys = GDA.buffer_duration env data rate.
Proof.
  intros Hnone Hdata Hrate.
  assert (Hsome : exists c, GDA.buffer_duration env data rate = Some c).
  { cbn [GDA.first_buffer_under] in Hdata.
    assert (Hb : GDA.is_buffer data = true).
    { destruct (GDA.lookup "audio_data" items) as [v |].
      - destruct (GDA.is_buffer v) eqn:Ev; [now injection Hdata as <- |].
        destruct (GDA.lookup "waveform" items) as [w |]; [| discriminate].
        destruct (GDA.is_buffer w) eqn:Ew; [now injection Hdata as <- | discriminate].
      - destruct (GDA.lookup "waveform" items) as [w |]; [| discriminate].
        destruct (GDA.is_buffer w) eqn:Ew; [now injection Hdata as <- | discriminate]. }
    destruct data; try discriminate Hb; cbn; eauto. }
  destruct Hsome as [c Hc].
  rewrite scan_keys_unfold. cbv beta zeta.
  rewrite !by_rate_none.
  - cbn [GDA.orelse]. cbn [GDA.first_buffer_under] in Hdata.
    destruct (GDA.lookup "audio_data" items) as [v |].
    + rewrite scan_rate_first. destruct (GDA.is_buffer v) eqn:Ev.
      { injection Hdata as ->. now rewrite Hrate, Hc. }
      cbn [GDA.orelse].
      destruct (GDA.lookup "waveform" items) as [w |]; [| discriminate].
      rewrite scan_rate_first.
      destruct (GDA.is_buffer w) eqn:Ew; [| discriminate].
      injection Hdata as ->. now rewrite Hrate, Hc.
    + cbn [GDA.orelse].
      destruct (GDA.lookup "waveform" items) as [w |]; [| discriminate].
      rewrite scan_rate_first.
      destruct (GDA.is_buffer w) eqn:Ew; [| discriminate].
      injection Hdata as ->. now rewrite Hrate, Hc.
  - destruct Hnone as [Hno | Hno]; [left | now right].
    cbn [GDA.first_present] in Hno.
    destruct (GDA.lookup "samplerate" items); [discriminate |].
    destruct (GDA.lookup "rate" items); [discriminate |].
    now destruct (GDA.lookup "sr" items).
  - destruct Hnone as [Hno | Hno]; [left | now right].
    cbn [GDA.first_present] in Hno.
    destruct (GDA.lookup "samplerate" items); [discriminate |].
    now destruct (GDA.lookup "rate" items).
  - destruct Hnone as [Hno | Hno]; [left | now right].
    cbn [GDA.first_present] in Hno.
    now destruct (GDA.lookup "samplerate" items).
Qed.

(** C6, as stated, fails: a mapping with the rate key [sample_rate] and the
    data key [data] holds a key of each list, yet the scan computes nothing
    from the pair, with or without librosa; without librosa the result is
    the error tuple, not 2 seconds. *)
Lemma sample_rate_with_data_is_not_scanned :
  let items := [("sample_rate", PInt 44100); ("data", PTensor [1; 88200]%N)] in
  GDA.direct_pair bare_env items = None /\
  GDA.lookup "audio" items = None /\
  GDA.filename_key bare_env items = None /\
  GDA.scan_keys bare_env items GDA.possible_keys = None /\
  GDA.scan_keys (with_librosa (Some sample_librosa) bare_env) items GDA.possible_keys
  = None /\
  GDA.get_duration bare_env (PDict items)
  = Ret (0, "错误: 无法解析音频格式: <class 'dict'>, 内容: ['sample_rate', 'data']").
Proof. repeat split. Qed.

(** C6, amended.  When the pair, the [audio] key and the [filename] key do
    not apply, the scan pairs (a) the first of the rate keys [samplerate],
    [rate], [sr] that the mapping holds with the first tensor or array under
    [data], [samples], [audio], [waveform], and, when (a) finds nothing,
    (b) the first tensor or array under [audio_data], [waveform] with the
    first of [samplerate], [rate], [sr], [sample_rate] that the mapping
    holds.  For a positive integer rate [r] and a buffer of [n] samples
    along its last axis, [n] below [2 ^ 53], the result is [floor(n / r)]. *)
Theorem key_scan_pairs (env : Env) (items : list (string * pyval))
  (data : pyval) (front : list N) (n : N) (r : Z)
  (Hdirect : GDA.direct_pair env items = None)
  (Haudio : GDA.lookup "audio" items = None)
  (Hfile : GDA.filename_key env items = None)
  (Hbuffer : data = PTensor (front ++ [n]) \/ data = PNdarray (front ++ [n]))
  (Hpos : 0 < r)
  (Hexact : Z.of_N n < 2 ^ 53) :
  (GDA.first_present items ["samplerate"; "rate"; "sr"] = Some (PInt r) ->
   GDA.first_buffer_under items ["data"; "samples"; "audio"; "waveform"] = Some data ->
   GDA.get_duration env (PDict items)
   = Ret (Z.of_N n / r, str_of_int (Z.of_N n / r) ++ " 秒")) /\
  (GDA.first_present items ["samplerate"; "rate"; "sr"] = None
   \/ GDA.first_buffer_under items ["data"; "samples"; "audio"; "waveform"] = None ->
   GDA.first_buffer_under items ["audio_data"; "waveform"] = Some data ->
   GDA.first_present items ["samplerate"; "rate"; "sr"; "sample_rate"] = Some (PInt r) ->
   GDA.get_duration env (PDict items)
   = Ret (Z.of_N n / r, str_of_int (Z.of_N n / r) ++ " 秒")).
Proof.
  pose proof (buffer_duration_floor env data front n r Hbuffer Hpos) as Hval.
  split.
  - intros Hrate Hdata.
    rewrite (body_scan_keys env items
               (Ret (Z.of_N n / r, duration_text (Z.of_N n / r))));
      [reflexivity | assumption .. |].
    now rewrite (scan_keys_by_rate env items data (PInt r) Hrate Hdata).
  - intros Hnone Hdata Hrate.
    rewrite (body_scan_keys env items
               (Ret (Z.of_N n / r, duration_text (Z.of_N n / r))));
      [reflexivity | assumption .. |].
    now rewrite (scan_keys_by_data env items data (PInt r) Hnone Hdata Hrate).
Qed.

Lemma key_scan_pairs_witness :
  GDA.get_duration bare_env
    (PDict [("sr", PInt 22050); ("data", PList []); ("waveform", PNdarray [66150]%N)])
  = Ret (3, "3 秒") /\
  GDA.get_duration bare_env
    (PDict [("audio_data", PTensor [1; 2; 88200]%N); ("sample_rate", PInt 44100)])
  = Ret (2, "2 秒").
Proof.
  split.
  - exact (proj1 (key_scan_pairs bare_env
                    [("sr", PInt 22050); ("data", PList []);
                     ("waveform", PNdarray [66150]%N)]
                    (PNdarray [66150]%N) [] 66150%N 22050
                    eq_refl eq_refl eq_refl (or_intror eq_refl) eq_refl eq_refl)
             eq_refl eq_refl).
  - exact (proj2 (key_scan_pairs bare_env
                    [("audio_data", PTensor [1; 2; 88200]%N);
                     ("sample_rate", PInt 44100)]
                    (PTensor [1; 2; 88200]%N) [1; 2]%N 88200%N 44100
                    eq_refl eq_refl eq_refl (or_introl eq_refl) eq_refl eq_refl)
             (or_introl eq_refl) eq_refl eq_refl).
Defined.

(** ** The sign of the seconds *)

(** C5, as stated, fails: a negative rate in the mapping gives negative
    seconds, [int(88200 / -44100) = -2]. *)
Lemma negative_rate_gives_negative_seconds :
  exists r,
    GDA.get_duration bare_env
      (PDict [("samples", PTensor [1; 88200]%N); ("sample_rate", PInt (-44100))])
    = Ret r /\ r = (-2, "-2 秒") /\ fst r < 0.
Proof. exists (-2, "-2 秒"). repeat split. Qed.

Lemma pyval_dict_ind (P : pyval -> Prop) :
  (forall v, (forall items, v <> PDict items) -> P v) ->
  (forall items, (forall k v, In (k, v) items -> P v) -> P (PDict items)) ->
  forall v, P v.
Proof.
  intros Hleaf Hdict. fix IH 1. intros v.
  destruct v as [ | | | | | | | | items];
    try (apply Hleaf; intros items'; discriminate).
  apply Hdict.
  induction items as [| [k v] tl IHtl]; intros k' v' Hin.
  - destruct Hin.
  - destruct Hin as [Heq | Hin].
    + injection Heq as _ <-. apply IH.
    + exact (IHtl k' v' Hin).
Qed.

Section NoNegative.

Variable env : Env.
Hypothesis Henv : env_no_negative env.

Lemma nonneg_raise (e : exn) : nonneg_outcome (Raise e).
Proof. intros r H. discriminate H. Qed.

Lemma nonneg_none : nonneg_strategy None.
Proof. intros c H. discriminate H. Qed.

Lemma nonneg_some (c : outcome result) :
  nonneg_outcome c -> nonneg_strategy (Some c).
Proof. intros H c' E. injection E as <-. exact H. Qed.

Lemma nonneg_orelse (a b : option (outcome result)) :
  nonneg_strategy a -> nonneg_strategy b -> nonneg_strategy (GDA.orelse a b).
Proof. intros Ha Hb. destruct a; [exact Ha | exact Hb]. Qed.

Lemma nonneg_handler (c : outcome result) :
  nonneg_outcome c -> nonneg_outcome (handler c).
Proof.
  intros H r E. destruct c as [r' | e]; cbn in E; injection E as <-.
  - now apply H.
  - cbn. lia.
Qed.

Lemma int_truediv_nonneg (n : Z) (rate : pyval) (z : Z) :
  0 <= n -> no_negative rate = true ->
  int_truediv env n rate = Ret z -> 0 <= z.
Proof.
  intros Hn Hrate H. destruct rate; cbn in H, Hrate; try discriminate H.
  - destruct (Z.eqb_spec z0 0) as [| Hz]; [discriminate H |].
    injection H as <-. apply Z.quot_pos; lia.
  - destruct (Z.eqb_spec (Qnum q) 0) as [| Hz]; [discriminate H |].
    apply (float_rate env Henv n q z Hn); [lia | exact H].
  - exact (array_rate env Henv n _ z Hn H).
  - exact (array_rate env Henv n _ z Hn H).
Qed.

Lemma seconds_result_nonneg (n : N) (rate : pyval) :
  no_negative rate = true -> nonneg_outcome (seconds_result env n rate).
Proof.
  intros Hrate r H. unfold seconds_result in H.
  destruct (int_truediv env (Z.of_N n) rate) as [z |] eqn:E; [| discriminate H].
  injection H as <-. cbn [fst].
  apply (int_truediv_nonneg (Z.of_N n) rate z); [lia | assumption ..].
Qed.

Lemma buffer_duration_nonneg (data rate : pyval) :
  no_negative rate = true -> nonneg_strategy (GDA.buffer_duration env data rate).
Proof.
  intros Hrate.
  destruct data; cbn [GDA.buffer_duration]; try apply nonneg_none;
    apply nonneg_some;
    (destruct (GDA.last_axis _ shape) as [n | e]; cbn [bind];
     [now apply seconds_result_nonneg | apply nonneg_raise]).
Qed.

Lemma int_of_float_nonneg (d : Q) : 0 <= Qnum d -> 0 <= int_of_float d.
Proof. intros H. unfold int_of_float. apply Z.quot_pos; lia. Qed.

(** The file handler. *)
Lemma file_handler_nonneg (audio_file : string) :
  nonneg_outcome (GetAudioDuration.get_duration env audio_file).
Proof.
  unfold GetAudioDuration.get_duration. apply nonneg_handler.
  unfold GetAudioDuration.body.
  destruct (negb (path_exists env audio_file)); [apply nonneg_raise |].
  assert (Ht : forall r, attempt (GetAudioDuration.try_torchaudio env audio_file)
                         = Some r -> 0 <= fst r).
  { intros r H. unfold GetAudioDuration.try_torchaudio in H.
    destruct (torchaudio_load env audio_file) as [[w sr] |] eqn:E; [| discriminate H].
    cbn [bind] in H. destruct (GetAudioDuration.size1 w) as [n |]; [| discriminate H].
    cbn [bind] in H.
    destruct (seconds_result env n (PInt sr)) as [r' |] eqn:Er; [| discriminate H].
    injection H as <-. apply (seconds_result_nonneg n (PInt sr)); [| exact Er].
    cbn. apply Z.leb_le. exact (torchaudio_rate env Henv _ _ _ E). }
  assert (Hl : forall L r, librosa env = Some L ->
                 attempt (GetAudioDuration.try_librosa L audio_file) = Some r ->
                 0 <= fst r).
  { intros L r HL H. unfold GetAudioDuration.try_librosa in H.
    destruct (lr_load L audio_file) as [[y sr] |] eqn:E; [| discriminate H].
    cbn [bind] in H.
    destruct (lr_get_duration L y sr) as [d |] eqn:Ed; [| discriminate H].
    injection H as <-. cbn [fst]. apply int_of_float_nonneg.
    apply (librosa_duration env Henv L y sr d HL); [| exact Ed].
    exact (librosa_rate env Henv L _ _ _ HL E). }
  assert (Hs : forall F r, sf env = Some F ->
                 attempt (GetAudioDuration.try_soundfile env F audio_file) = Some r ->
                 0 <= fst r).
  { intros F r HF H. unfold GetAudioDuration.try_soundfile in H.
    destruct (sf_read F audio_file) as [[data sr] |] eqn:E; [| discriminate H].
    cbn [bind] in H. destruct (GetAudioDuration.len data) as [n |]; [| discriminate H].
    cbn [bind] in H.
    destruct (seconds_result env n (PInt sr)) as [r' |] eqn:Er; [| discriminate H].
    injection H as <-. apply (seconds_result_nonneg n (PInt sr)); [| exact Er].
    cbn. apply Z.leb_le. exact (soundfile_rate env Henv F _ _ _ HF E). }
  unfold GetAudioDuration.backends. cbn [GetAudioDuration.first_success].
  destruct (attempt (GetAudioDuration.try_torchaudio env audio_file)) as [r |] eqn:Et.
  { intros r' E. injection E as <-. now apply Ht. }
  destruct (librosa env) as [L |] eqn:HL.
  - destruct (attempt (GetAudioDuration.try_librosa L audio_file)) as [r |] eqn:El.
    { intros r' E. injection E as <-. now apply (Hl L). }
    destruct (sf env) as [F |] eqn:HF; [| apply nonneg_raise].
    destruct (attempt (GetAudioDuration.try_soundfile env F audio_file)) as [r |] eqn:Es;
      [| apply nonneg_raise].
    intros r' E. injection E as <-. now apply (Hs F).
  - destruct (sf env) as [F |] eqn:HF; [| apply nonneg_raise].
    destruct (attempt (GetAudioDuration.try_soundfile env F audio_file)) as [r |] eqn:Es;
      [| apply nonneg_raise].
    intros r' E. injection E as <-. now apply (Hs F).
Qed.

End NoNegative.

Section NoNegativeAudio.

Variable env : Env.
Hypothesis Henv : env_no_negative env.

Variable items : list (string * pyval).
Hypothesis Hitems : forallb (fun kv => no_negative (snd kv)) items = true.

Lemma lookup_no_negative (k : string) (v : pyval) :
  GDA.lookup k items = Some v -> no_negative v = true.
Proof.
  revert Hitems. induction items as [| [k' v'] tl IH]; intros Hall H.
  - discriminate H.
  - cbn in Hall. apply andb_prop in Hall as [Hv Htl]. cbn [GDA.lookup] in H.
    destruct (String.eqb k k').
    + now injection H as <-.
    + now apply IH.
Qed.

Lemma direct_pair_nonneg : nonneg_strategy (GDA.direct_pair env items).
Proof.
  unfold GDA.direct_pair.
  destruct (GDA.lookup "samples" items) as [samples |]; [| apply nonneg_none].
  destruct (GDA.lookup "sample_rate" items) as [rate |] eqn:E; [| apply nonneg_none].
  apply (buffer_duration_nonneg env Henv). now apply (lookup_no_negative "sample_rate").
Qed.

Lemma filename_key_nonneg : nonneg_strategy (GDA.filename_key env items).
Proof.
  unfold GDA.filename_key.
  destruct (GDA.lookup "filename" items) as [[] |]; try apply nonneg_none.
  apply nonneg_some. now apply file_handler_nonneg.
Qed.

Lemma scan_data_nonneg (rate : pyval) (keys : list string) :
  no_negative rate = true -> nonneg_strategy (GDA.scan_data env items rate keys).
Proof.
  intros Hrate. induction keys as [| key tl IH]; [apply nonneg_none |].
  cbn [GDA.scan_data]. destruct (GDA.lookup key items) as [data |]; [| exact IH].
  apply nonneg_orelse; [now apply (buffer_duration_nonneg env Henv) | exact IH].
Qed.

Lemma scan_rate_nonneg (data : pyval) (keys : list string) :
  nonneg_strategy (GDA.scan_rate env items data keys).
Proof.
  induction keys as [| key tl IH]; [apply nonneg_none |].
  cbn [GDA.scan_rate]. destruct (GDA.lookup key items) as [rate |] eqn:E; [| exact IH].
  apply nonneg_orelse; [| exact IH].
  apply (buffer_duration_nonneg env Henv). now apply (lookup_no_negative key).
Qed.

Lemma scan_keys_nonneg (keys : list string) :
  nonneg_strategy (GDA.scan_keys env items keys).
Proof.
  induction keys as [| key tl IH]; [apply nonneg_none |].
  cbn [GDA.scan_keys]. apply nonneg_orelse; [| exact IH].
  destruct (GDA.lookup key items) as [v |] eqn:E; [| apply nonneg_none].
  destruct (GDA.mem key ["samplerate"; "rate"; "sr"]).
  - apply scan_data_nonneg. now apply (lookup_no_negative key).
  - destruct (GDA.mem key ["audio_data"; "waveform"]);
      [apply scan_rate_nonneg | apply nonneg_none].
Qed.

Lemma rate_or_default_nonneg (keys : list string) :
  no_negative (GDA.rate_or_default items keys) = true.
Proof.
  induction keys as [| key tl IH]; [reflexivity |].
  cbn [GDA.rate_or_default].
  destruct (GDA.lookup key items) as [v |] eqn:E; [| exact IH].
  now apply (lookup_no_negative key).
Qed.

End NoNegativeAudio.

Lemma estimate_nonneg (env : Env) (Henv : env_no_negative env) (L : Librosa)
  (shape : list N) (rate : pyval) :
  librosa env = Some L -> no_negative rate = true ->
  nonneg_outcome (GDA.estimate L shape rate).
Proof.
  intros HL Hrate r H. unfold GDA.estimate in H.
  destruct (GDA.first_channel shape) as [y |]; [| discriminate H].
  cbn [bind] in H.
  destruct (lr_get_duration L y rate) as [d |] eqn:Ed; [| discriminate H].
  injection H as <-. cbn [fst]. apply int_of_float_nonneg.
  exact (librosa_duration env Henv L y rate d HL Hrate Ed).
Qed.

Lemma fallback_nonneg (env : Env) (Henv : env_no_negative env) (audio : pyval) :
  no_negative audio = true -> nonneg_outcome (GDA.fallback env audio).
Proof.
  intros Haudio. unfold GDA.fallback.
  destruct (librosa env) as [L |] eqn:HL; [| apply nonneg_raise].
  destruct (GDA.last_resort L audio) as [r |] eqn:E; [| apply nonneg_raise].
  cbn [attempt]. intros r' Er. injection Er as <-.
  destruct audio; cbn [GDA.last_resort] in E; try discriminate E.
  - now apply (estimate_nonneg env Henv L shape (PInt 44100) HL eq_refl).
  - destruct (GDA.first_buffer items) as [shape |]; [| discriminate E].
    apply (estimate_nonneg env Henv L shape _ HL
             (rate_or_default_nonneg items Haudio _) _ E).
Qed.

Lemma explore_nonneg (env : Env) (Henv : env_no_negative env)
  (items : list (string * pyval)) :
  (forall k v, In (k, v) items ->
     no_negative v = true /\ nonneg_outcome (GDA.get_duration env v)) ->
  nonneg_strategy (GDA.explore env items (GDA.calls env items)).
Proof.
  induction items as [| [k v] tl IH]; intros Hall; [apply nonneg_none |].
  assert (Htl : nonneg_strategy (GDA.explore env tl (GDA.calls env tl))).
  { apply IH. intros k' v' Hin. apply (Hall k' v'). now right. }
  destruct (Hall k v (or_introl eq_refl)) as [Hv Hrec].
  cbn [GDA.calls map fst snd GDA.explore]. fold (GDA.calls env tl).
  destruct v as [ | | | | | | | l | nested]; try exact Htl.
  - destruct l as [| samples [| rate [| x l]]]; try exact Htl.
    pose proof (buffer_duration_nonneg env Henv samples rate) as Hb.
    destruct (GDA.buffer_duration env samples rate) as [[r |] |]; try exact Htl.
    apply nonneg_some. apply Hb; [| reflexivity].
    cbn in Hv. apply andb_prop in Hv as [_ Hv].
    now apply andb_prop in Hv as [Hv _].
  - destruct (GDA.get_duration env (PDict nested)) as [r | e];
      [| apply nonneg_some, nonneg_raise].
    destruct (0 <? fst r); [| exact Htl].
    apply nonneg_some. exact Hrec.
Qed.

Lemma audio_handler_nonneg (env : Env) (Henv : env_no_negative env) (audio : pyval) :
  no_negative audio = true -> nonneg_outcome (GDA.get_duration env audio).
Proof.
  induction audio as [v Hleaf | items IH] using pyval_dict_ind; intros Hv.
  - rewrite get_duration_unfold. apply nonneg_handler.
    unfold GDA.body. destruct v; try now apply fallback_nonneg.
    now destruct (Hleaf items).
  - rewrite get_duration_unfold. apply nonneg_handler.
    unfold GDA.body. cbn [GDA.calls_of]. cbn [no_negative] in Hv.
    assert (Hs : nonneg_strategy (GDA.structural env items (GDA.calls env items))).
    { unfold GDA.structural, GDA.after_direct_pair.
      apply nonneg_orelse; [| apply nonneg_orelse; [| apply nonneg_orelse;
        [| apply nonneg_orelse]]].
      - now apply direct_pair_nonneg.
      - unfold GDA.audio_key. rewrite lookup_calls.
        destruct (GDA.lookup "audio" items) as [v |] eqn:E; [| apply nonneg_none].
        apply nonneg_some. cbn [option_map].
        assert (Hin : In ("audio", v) items).
        { clear - E. induction items as [| [k' v'] tl IHtl]; [discriminate E |].
          cbn [GDA.lookup] in E. destruct (String.eqb_spec "audio" k') as [<- | _].
          - injection E as ->. now left.
          - right. now apply IHtl. }
        apply (IH "audio" v Hin). now apply (lookup_no_negative items Hv "audio").
      - now apply filename_key_nonneg.
      - now apply scan_keys_nonneg.
      - apply explore_nonneg; [exact Henv |].
        intros k v Hin. assert (Hnv : no_negative v = true).
        { rewrite forallb_forall in Hv. exact (Hv (k, v) Hin). }
        split; [exact Hnv | now apply (IH k v Hin)]. }
    destruct (GDA.structural env items (GDA.calls env items)) as [c |].
    + now apply Hs.
    + now apply fallback_nonneg.
Qed.

(** [int(n / r)] for two ints, [n >= 0]: the quotient truncated toward
    zero, which leaves a remainder of [n] that is not negative. *)
Lemma quot_truncates (n r : Z) :
  0 <= n -> r <> 0 -> 0 <= n - r * Z.quot n r < Z.abs r.
Proof.
  intros Hn Hr.
  pose proof (Z.quot_rem' n r) as Hq.
  pose proof (Z.rem_nonneg n r Hr Hn) as H0.
  pose proof (Z.rem_bound_abs n r Hr) as Hb.
  rewrite (Z.abs_eq (Z.rem n r)) in Hb by exact H0. lia.
Qed.

(** C5, amended.  The seconds are non-negative for every path and for every
    input that holds no negative number, when the libraries report no
    negative rate and no negative duration.  They are [int(count / rate)],
    truncated toward zero and not rounded: for a count [n] below [2 ^ 53]
    and an integer rate [r] other than 0, the pair of [samples] and
    [sample_rate] and the torchaudio block both give the [s] with
    [0 <= n - r * s < |r|]. *)
Theorem seconds_nonneg_without_negative_rates (env : Env) :
  (forall audio_file,
     env_no_negative env ->
     exists r, GetAudioDuration.get_duration env audio_file = Ret r /\ 0 <= fst r) /\
  (forall audio,
     env_no_negative env -> no_negative audio = true ->
     exists r, GDA.get_duration env audio = Ret r /\ 0 <= fst r) /\
  (forall items samples front n r,
     GDA.lookup "samples" items = Some samples ->
     samples = PTensor (front ++ [n]) \/ samples = PNdarray (front ++ [n]) ->
     GDA.lookup "sample_rate" items = Some (PInt r) ->
     r <> 0 -> Z.of_N n < 2 ^ 53 ->
     exists s,
       GDA.get_duration env (PDict items) = Ret (s, str_of_int s ++ " 秒") /\
       s = Z.quot (Z.of_N n) r /\ 0 <= Z.of_N n - r * s < Z.abs r) /\
  (forall audio_file waveform sample_rate n,
     path_exists env audio_file = true ->
     torchaudio_load env audio_file = Ret (waveform, sample_rate) ->
     nth_error waveform 1 = Some n ->
     sample_rate <> 0 -> Z.of_N n < 2 ^ 53 ->
     exists s,
       GetAudioDuration.get_duration env audio_file = Ret (s, str_of_int s ++ " 秒") /\
       s = Z.quot (Z.of_N n) sample_rate /\
       0 <= Z.of_N n - sample_rate * s < Z.abs sample_rate).
Proof.
  split; [| split; [| split]].
  - intros audio_file Henv.
    destruct (proj1 (handlers_returning env audio_file PNone)) as [r Hr].
    exists r. split; [exact Hr |].
    now apply (file_handler_nonneg env Henv audio_file).
  - intros audio Henv Haudio.
    destruct (proj2 (handlers_returning env "" audio)) as [r Hr].
    exists r. split; [exact Hr |].
    now apply (audio_handler_nonneg env Henv audio Haudio).
  - intros items samples front n r Hsamples Hbuffer Hrate Hr Hexact.
    exists (Z.quot (Z.of_N n) r). split; [| split; [reflexivity |]].
    + rewrite get_duration_unfold.
      rewrite (body_direct_pair env items _
                 (Ret (Z.quot (Z.of_N n) r, duration_text (Z.quot (Z.of_N n) r))));
        [reflexivity |].
      unfold GDA.direct_pair. rewrite Hsamples, Hrate.
      destruct Hbuffer as [-> | ->]; cbn [GDA.buffer_duration];
        rewrite last_axis_snoc; cbn [bind];
        now rewrite seconds_result_int.
    + apply quot_truncates; [lia | exact Hr].
  - intros audio_file waveform sample_rate n Hexists Hload Hn Hr Hexact.
    exists (Z.quot (Z.of_N n) sample_rate). split; [| split; [reflexivity |]].
    + unfold GetAudioDuration.get_duration, GetAudioDuration.body.
      rewrite Hexists. cbn [negb]. unfold GetAudioDuration.backends.
      unfold GetAudioDuration.try_torchaudio. rewrite Hload. cbn [bind].
      unfold GetAudioDuration.size1. rewrite Hn. cbn [bind].
      now rewrite seconds_result_int.
    + apply quot_truncates; [lia | exact Hr].
Qed.

Lemma studio_env_no_negative : env_no_negative studio_env.
Proof.
  constructor.
  - intros p shape r H. cbn in H.
    destruct (String.eqb p "a.wav"); [| discriminate H].
    injection H as _ <-. lia.
  - intros L p y sr HL H. cbn in HL. injection HL as <-. cbn in H.
    destruct (String.eqb p "b.mp3"); [| discriminate H].
    now injection H as _ <-.
  - intros L y sr d HL _ H. cbn in HL. injection HL as <-. cbn in H.
    destruct (rev y) as [| n rest]; [discriminate H |].
    destruct sr; try discriminate H.
    destruct (z =? 0); [discriminate H |].
    injection H as <-. cbn. lia.
  - intros F p shape r HF H. cbn in HF. injection HF as <-. cbn in H.
    destruct (String.eqb p "c.ogg"); [| discriminate H].
    injection H as _ <-. lia.
  - intros n rate z _ H. discriminate H.
  - intros n q z Hn Hq H. cbn [int_truediv_float studio_env bare_env] in H.
    unfold sample_truediv_float in H.
    destruct ((Qden (Qred q) =? 1)%positive && (0 <=? n) && (n <? 2 ^ 53));
      [| discriminate H].
    injection H as <-.
    assert (Hred : 0 <= Qnum (Qred q)).
    { pose proof (Qred_correct q) as E. unfold Qeq in E. nia. }
    destruct (Z.eq_dec (Qnum (Qred q)) 0) as [-> | Hne].
    + now destruct n.
    + apply Z.quot_pos; lia.
Qed.

Lemma seconds_nonneg_without_negative_rates_witness :
  (exists r, GetAudioDuration.get_duration studio_env "b.mp3" = Ret r /\ 0 <= fst r) /\
  (exists r,
     GDA.get_duration studio_env
       (PDict [("take", PDict [("rate", PInt 8000); ("data", PNdarray [2; 20000]%N)]);
               ("filename", PList [PInt 3])])
     = Ret r /\ 0 <= fst r) /\
  (exists s,
     GDA.get_duration studio_env
       (PDict [("samples", PTensor [1; 120000]%N); ("sample_rate", PInt (-44100))])
     = Ret (s, str_of_int s ++ " 秒") /\
     s = -2 /\ 0 <= 120000 - -44100 * s < 44100) /\
  (exists s,
     GetAudioDuration.get_duration studio_env "a.wav" = Ret (s, str_of_int s ++ " 秒") /\
     s = 2 /\ 0 <= 100000 - 44100 * s < 44100).
Proof.
  pose proof (seconds_nonneg_without_negative_rates studio_env) as (H1 & H2 & H3 & H4).
  split; [| split; [| split]].
  - exact (H1 "b.mp3" studio_env_no_negative).
  - exact (H2 (PDict [("take", PDict [("rate", PInt 8000);
                                      ("data", PNdarray [2; 20000]%N)]);
                      ("filename", PList [PInt 3])])
              studio_env_no_negative eq_refl).
  - refine (H3 [("samples", PTensor [1; 120000]%N); ("sample_rate", PInt (-44100))]
              (PTensor [1; 120000]%N) [1%N] 120000%N (-44100)
              eq_refl (or_introl eq_refl) eq_refl _ eq_refl).
    discriminate.
  - refine (H4 "a.wav" [2; 100000]%N 44100 100000%N eq_refl eq_refl eq_refl _ eq_refl).
    discriminate.
Defined.

(** ** Mappings in which nothing can be measured *)

Lemma lookup_In {A : Type} (k : string) (items : list (string * A)) (v : A) :
  GDA.lookup k items = Some v -> In (k, v) items.
Proof.
  induction items as [| [k' v'] tl IH]; intros H; [discriminate H |].
  cbn [GDA.lookup] in H. destruct (String.eqb_spec k k') as [<- | _].
  - injection H as ->. now left.
  - right. now apply IH.
Qed.

Section Unmeasurable.

Variable env : Env.
Variable items : list (string * pyval).
Hypothesis Hno_buffer : forall k v, In (k, v) items -> GDA.is_buffer v = false.

Lemma first_buffer_under_none (keys : list string) :
  GDA.first_buffer_under items keys = None.
Proof.
  induction keys as [| key tl IH]; [reflexivity |].
  cbn [GDA.first_buffer_under].
  destruct (GDA.lookup key items) as [v |] eqn:E; [| exact IH].
  now rewrite (Hno_buffer key v (lookup_In key items v E)).
Qed.

Lemma by_data_none (key : string) (rate_keys : list string) :
  match GDA.lookup key items with
  | Some v => GDA.scan_rate env items v rate_keys
  | None => None
  end = None.
Proof.
  destruct (GDA.lookup key items) as [v |] eqn:E; [| reflexivity].
  now rewrite scan_rate_first, (Hno_buffer key v (lookup_In key items v E)).
Qed.

Lemma scan_keys_none : GDA.scan_keys env items GDA.possible_keys = None.
Proof.
  rewrite scan_keys_unfold. cbv beta zeta.
  rewrite !by_rate_none by (right; apply first_buffer_under_none).
  now rewrite !by_data_none.
Qed.

Lemma direct_pair_none : GDA.direct_pair env items = None.
Proof.
  unfold GDA.direct_pair.
  destruct (GDA.lookup "samples" items) as [samples |] eqn:E; [| reflexivity].
  destruct (GDA.lookup "sample_rate" items) as [rate |]; [| reflexivity].
  pose proof (Hno_buffer _ _ (lookup_In _ _ _ E)) as Hb. now destruct samples.
Qed.

End Unmeasurable.

Lemma first_buffer_none (items : list (string * pyval)) :
  (forall k v, In (k, v) items -> GDA.is_buffer v = false) ->
  GDA.first_buffer items = None.
Proof.
  induction items as [| [k v] tl IH]; intros H; [reflexivity |].
  pose proof (H k v (or_introl eq_refl)) as Hv.
  assert (Htl : GDA.first_buffer tl = None).
  { apply IH. intros k' v' Hin. apply (H k' v'). now right. }
  destruct v; try discriminate Hv; exact Htl.
Qed.

Lemma passed_over_no_buffer (env : Env) (v : pyval) :
  GDA.passed_over env v -> GDA.is_buffer v = false.
Proof.
  intros [Hp | [(nested & r & -> & _) | (l & -> & _)]]; try reflexivity.
  now destruct v.
Qed.

(** The loop over the values goes through the values that it passes
    over. *)
Lemma explore_passed_over (env : Env) (before rest : list (string * pyval)) :
  (forall k v, In (k, v) before -> GDA.passed_over env v) ->
  GDA.explore env (before ++ rest) (GDA.calls env (before ++ rest))
  = GDA.explore env rest (GDA.calls env rest).
Proof.
  induction before as [| [k v] tl IH]; intros H; [reflexivity |].
  assert (Htl : GDA.explore env (tl ++ rest) (GDA.calls env (tl ++ rest))
                = GDA.explore env rest (GDA.calls env rest)).
  { apply IH. intros k' v' Hin. apply (H k' v'). now right. }
  cbn [app GDA.calls map fst snd GDA.explore]. fold (GDA.calls env (tl ++ rest)).
  destruct (H k v (or_introl eq_refl))
    as [Hp | [(nested & r & -> & Hr & Hle) | (l & -> & Hskip)]].
  - destruct v; try discriminate Hp; exact Htl.
  - rewrite Hr. destruct (Z.ltb_spec 0 (fst r)) as [Hlt | _]; [lia | exact Htl].
  - destruct Hskip as [Hlen | (samples & rate & -> & [Hnb | [e He]])].
    + destruct l as [| a [| b [| c l]]]; try exact Htl. now destruct Hlen.
    + destruct samples; try discriminate Hnb; exact Htl.
    + rewrite He. exact Htl.
Qed.

Lemma explore_none (env : Env) (items : list (string * pyval)) :
  (forall k v, In (k, v) items -> GDA.passed_over env v) ->
  GDA.explore env items (GDA.calls env items) = None.
Proof.
  intros H. pose proof (explore_passed_over env items [] H) as E.
  now rewrite app_nil_r in E.
Qed.

Lemma filename_key_none (env : Env) (items : list (string * pyval)) :
  (forall p, GDA.lookup "filename" items <> Some (PStr p)) <->
  GDA.filename_key env items = None.
Proof.
  unfold GDA.filename_key. split.
  - intros H. destruct (GDA.lookup "filename" items) as [[] |]; try reflexivity.
    now destruct (H s).
  - intros H p E. rewrite E in H. discriminate H.
Qed.

Lemma passed_over_reaches_values (env : Env) (items : list (string * pyval)) :
  (forall k v, In (k, v) items -> GDA.passed_over env v) ->
  GDA.lookup "audio" items = None ->
  (forall p, GDA.lookup "filename" items <> Some (PStr p)) ->
  GDA.reaches_values env items.
Proof.
  intros Hvalues Haudio Hfilename.
  assert (Hnb : forall k v, In (k, v) items -> GDA.is_buffer v = false).
  { intros k v Hin. exact (passed_over_no_buffer env v (Hvalues k v Hin)). }
  repeat split.
  - exact (direct_pair_none env items Hnb).
  - exact Haudio.
  - now apply filename_key_none.
  - exact (scan_keys_none env items Hnb).
Qed.

(** ** The loop over the values *)

Lemma body_explore (env : Env) (items : list (string * pyval)) :
  GDA.reaches_values env items ->
  GDA.get_duration env (PDict items)
  = handler match GDA.explore env items (GDA.calls env items) with
            | Some c => c
            | None => GDA.fallback env (PDict items)
            end.
Proof.
  intros (Hd & Ha & Hf & Hs). rewrite get_duration_unfold.
  unfold GDA.body, GDA.structural, GDA.after_direct_pair, GDA.audio_key.
  cbn [GDA.calls_of]. rewrite Hd, lookup_calls, Ha, Hf, Hs. reflexivity.
Qed.

Lemma body_last_resort (env : Env) (audio : pyval) :
  GDA.reaches_last_resort env audio ->
  GDA.get_duration env audio = handler (GDA.fallback env audio).
Proof.
  intros H. destruct audio; try (rewrite get_duration_unfold; reflexivity).
  now apply body_fallback.
Qed.

(** The first value that is not passed over is a mapping with positive
    seconds. *)
Lemma nested_among_values (env : Env) (before tl : list (string * pyval))
  (k : string) (nested : list (string * pyval)) (r : result) :
  GDA.reaches_values env (before ++ (k, PDict nested) :: tl) ->
  (forall k' v, In (k', v) before -> GDA.passed_over env v) ->
  GDA.get_duration env (PDict nested) = Ret r -> 0 < fst r ->
  GDA.get_duration env (PDict (before ++ (k, PDict nested) :: tl)) = Ret r.
Proof.
  intros Hreach Hbefore Hr Hpos.
  rewrite (body_explore env _ Hreach), (explore_passed_over env before _ Hbefore).
  cbn [GDA.calls map fst snd GDA.explore]. rewrite Hr.
  destruct (Z.ltb_spec 0 (fst r)) as [_ | Hle]; [reflexivity | lia].
Qed.

(** The first value that is not passed over is a tuple of a buffer and a
    positive integer rate. *)
Lemma tuple_among_values (env : Env) (before tl : list (string * pyval))
  (k : string) (samples : pyval) (front : list N) (n : N) (r : Z) :
  GDA.reaches_values env (before ++ (k, PTuple [samples; PInt r]) :: tl) ->
  (forall k' v, In (k', v) before -> GDA.passed_over env v) ->
  samples = PTensor (front ++ [n]) \/ samples = PNdarray (front ++ [n]) ->
  0 < r ->
  GDA.get_duration env (PDict (before ++ (k, PTuple [samples; PInt r]) :: tl))
  = Ret (Z.of_N n / r, duration_text (Z.of_N n / r)).
Proof.
  intros Hreach Hbefore Hbuffer Hpos.
  rewrite (body_explore env _ Hreach), (explore_passed_over env before _ Hbefore).
  cbn [GDA.calls map fst snd GDA.explore].
  now rewrite (buffer_duration_floor env samples front n r Hbuffer Hpos).
Qed.

(** Every value is passed over: nothing is measured, with or without
    librosa. *)
Lemma values_passed_over (env : Env) (items : list (string * pyval)) :
  GDA.reaches_values env items ->
  (forall k v, In (k, v) items -> GDA.passed_over env v) ->
  GDA.get_duration env (PDict items)
  = Ret (0, "错误: 无法解析音频格式: <class 'dict'>, 内容: "
            ++ py_str env (GDA.keys_list items)).
Proof.
  intros Hreach Hvalues.
  rewrite (body_explore env items Hreach), (explore_none env items Hvalues).
  unfold GDA.fallback. cbn [GDA.last_resort].
  rewrite (first_buffer_none items).
  - now destruct (librosa env).
  - intros k v Hin. exact (passed_over_no_buffer env v (Hvalues k v Hin)).
Qed.

Lemma zero_seconds (n : N) (r : Z) :
  Z.of_N n < r -> (Z.of_N n / r, duration_text (Z.of_N n / r)) = (0, "0 秒").
Proof. intros H. rewrite Z.div_small by lia. reflexivity. Qed.

(** ** Sub-results with zero seconds *)

(** C4, as stated, fails: the [samples] / [sample_rate] pair computes 0
    seconds for 100 samples at 44100 Hz and returns it at once, although
    the scan of the values would have found the nested mapping of 2
    seconds. *)
Lemma zero_of_direct_pair_is_returned :
  let nested := PDict [("samples", PTensor [1; 88200]%N); ("sample_rate", PInt 44100)] in
  let items := [("samples", PTensor [1; 100]%N); ("sample_rate", PInt 44100);
                ("take", nested)] in
  GDA.direct_pair bare_env items = Some (Ret (0, "0 秒")) /\
  GDA.explore bare_env items (GDA.calls bare_env items) = Some (Ret (2, "2 秒")) /\
  GDA.get_duration bare_env (PDict items) = Ret (0, "0 秒").
Proof. repeat split. Qed.

(** C4, amended.  Only the loop over the values of a mapping treats a
    sub-result as not resolved: a nested mapping whose own result has
    [seconds <= 0] is passed over, and the first value that is not passed
    over, a nested mapping with [seconds > 0], gives the result.  Every other
    strategy returns the zero that it computes, for a count [n] below the
    rate [r] and below [2 ^ 53]: the [samples] / [sample_rate] pair, the
    [audio] key, the [filename] key, the scan of key names, and a 2-tuple
    among the values.  The last resort returns what librosa gives, zero
    included, when nothing was raised there; when it raised, the result is
    the error tuple of the unresolved input. *)
Theorem nested_zero_is_passed_over (env : Env) :
  (forall before k nested tl r,
     GDA.reaches_values env (before ++ (k, PDict nested) :: tl) ->
     (forall k' v, In (k', v) before ->
        GDA.is_plain v = true \/
        exists nested' r', v = PDict nested' /\
          GDA.get_duration env v = Ret r' /\ fst r' <= 0) ->
     GDA.get_duration env (PDict nested) = Ret r -> 0 < fst r ->
     GDA.get_duration env (PDict (before ++ (k, PDict nested) :: tl)) = Ret r) /\
  (forall items samples front n r,
     GDA.lookup "samples" items = Some samples ->
     samples = PTensor (front ++ [n]) \/ samples = PNdarray (front ++ [n]) ->
     GDA.lookup "sample_rate" items = Some (PInt r) ->
     Z.of_N n < r -> Z.of_N n < 2 ^ 53 ->
     GDA.get_duration env (PDict items) = Ret (0, "0 秒")) /\
  (forall items inner t,
     GDA.direct_pair env items = None ->
     GDA.lookup "audio" items = Some inner ->
     GDA.get_duration env inner = Ret (0, t) ->
     GDA.get_duration env (PDict items) = Ret (0, t)) /\
  (forall items p t,
     GDA.direct_pair env items = None ->
     GDA.lookup "audio" items = None ->
     GDA.lookup "filename" items = Some (PStr p) ->
     GetAudioDuration.get_duration env p = Ret (0, t) ->
     GDA.get_duration env (PDict items) = Ret (0, t)) /\
  (forall items data front n r,
     GDA.direct_pair env items = None ->
     GDA.lookup "audio" items = None ->
     GDA.filename_key env items = None ->
     GDA.first_present items ["samplerate"; "rate"; "sr"] = Some (PInt r) ->
     GDA.first_buffer_under items ["data"; "samples"; "audio"; "waveform"] = Some data ->
     data = PTensor (front ++ [n]) \/ data = PNdarray (front ++ [n]) ->
     Z.of_N n < r -> Z.of_N n < 2 ^ 53 ->
     GDA.get_duration env (PDict items) = Ret (0, "0 秒")) /\
  (forall k samples front n r tl,
     GDA.reaches_values env ((k, PTuple [samples; PInt r]) :: tl) ->
     samples = PTensor (front ++ [n]) \/ samples = PNdarray (front ++ [n]) ->
     Z.of_N n < r -> Z.of_N n < 2 ^ 53 ->
     GDA.get_duration env (PDict ((k, PTuple [samples; PInt r]) :: tl))
     = Ret (0, "0 秒")) /\
  (forall L audio last,
     GDA.reaches_last_resort env audio ->
     librosa env = Some L -> GDA.last_resort L audio = Ret last ->
     GDA.get_duration env audio = Ret last) /\
  (forall L audio e,
     GDA.reaches_last_resort env audio ->
     librosa env = Some L -> GDA.last_resort L audio = Raise e ->
     GDA.get_duration env audio
     = Ret (0, "错误: " ++ exn_msg (GDA.unresolved env audio))).
Proof.
  repeat split.
  - intros before k nested tl r Hreach Hbefore Hr Hpos.
    apply (nested_among_values env before tl k nested r Hreach); try assumption.
    intros k' v Hin.
    destruct (Hbefore k' v Hin) as [Hp | Hn]; [now left | right; now left].
  - intros items samples front n r Hsamples Hbuffer Hrate Hlt Hexact.
    rewrite get_duration_unfold.
    rewrite (body_direct_pair env items _ (Ret (0, "0 秒"))); [reflexivity |].
    unfold GDA.direct_pair. rewrite Hsamples, Hrate.
    rewrite (buffer_duration_floor env samples front n r Hbuffer) by lia.
    now rewrite zero_seconds.
  - intros items inner t Hd Ha Hinner. rewrite get_duration_unfold.
    unfold GDA.body, GDA.structural, GDA.after_direct_pair, GDA.audio_key.
    cbn [GDA.calls_of]. rewrite Hd, lookup_calls, Ha.
    cbn [option_map GDA.orelse]. now rewrite Hinner.
  - intros items p t Hd Ha Hf Hfile. rewrite get_duration_unfold.
    unfold GDA.body, GDA.structural, GDA.after_direct_pair, GDA.audio_key.
    cbn [GDA.calls_of]. rewrite Hd, lookup_calls, Ha.
    cbn [option_map GDA.orelse]. unfold GDA.filename_key. rewrite Hf.
    cbn [GDA.orelse]. now rewrite Hfile.
  - intros items data front n r Hd Ha Hf Hrate Hdata Hbuffer Hlt Hexact.
    rewrite (body_scan_keys env items (Ret (0, "0 秒"))); [reflexivity | assumption .. |].
    rewrite (scan_keys_by_rate env items data (PInt r) Hrate Hdata).
    rewrite (buffer_duration_floor env data front n r Hbuffer) by lia.
    now rewrite zero_seconds.
  - intros k samples front n r tl Hreach Hbuffer Hlt Hexact.
    assert (Hnone : forall k' v, In (k', v) (@nil (string * pyval)) ->
                      GDA.passed_over env v) by (intros k' v []).
    assert (Hpos : 0 < r) by lia.
    pose proof (tuple_among_values env [] tl k samples front n r
                  Hreach Hnone Hbuffer Hpos) as H.
    cbn [app] in H. rewrite H. now rewrite zero_seconds.
  - intros L audio last Hreach HL Hlast.
    rewrite (body_last_resort env audio Hreach).
    unfold GDA.fallback. now rewrite HL, Hlast.
  - intros L audio e Hreach HL He.
    rewrite (body_last_resort env audio Hreach).
    unfold GDA.fallback. now rewrite HL, He.
Qed.

Lemma nested_zero_is_passed_over_witness :
  let silent := PDict [("samples", PTensor [1; 100]%N); ("sample_rate", PInt 44100)] in
  let loud := PDict [("samples", PTensor [1; 88200]%N); ("sample_rate", PInt 44100)] in
  let env := with_librosa (Some sample_librosa) bare_env in
  GDA.get_duration bare_env (PDict [("note", PStr "x"); ("intro", silent); ("take", loud)])
  = Ret (2, "2 秒") /\
  GDA.get_duration bare_env
    (PDict [("samples", PTensor [1; 100]%N); ("sample_rate", PInt 44100); ("take", loud)])
  = Ret (0, "0 秒") /\
  GDA.get_duration bare_env (PDict [("audio", silent); ("take", loud)])
  = Ret (0, "0 秒") /\
  GDA.get_duration bare_env (PDict [("filename", PStr "x.wav"); ("take", loud)])
  = Ret (0, "错误: 文件不存在: x.wav") /\
  GDA.get_duration bare_env
    (PDict [("rate", PInt 44100); ("data", PNdarray [100]%N); ("take", loud)])
  = Ret (0, "0 秒") /\
  GDA.get_duration bare_env
    (PDict [("clip", PTuple [PNdarray [100]%N; PInt 44100]); ("take", loud)])
  = Ret (0, "0 秒") /\
  GDA.get_duration env (PNdarray [100]%N) = Ret (0, "0 秒") /\
  GDA.get_duration env (PNdarray [0; 100]%N)
  = Ret (0, "错误: 无法解析音频格式: <class 'numpy.ndarray'>, 内容: ndarray").
Proof.
  pose proof (nested_zero_is_passed_over bare_env)
    as (H1 & H2 & H3 & H4 & H5 & H6 & _).
  pose proof (nested_zero_is_passed_over (with_librosa (Some sample_librosa) bare_env))
    as (_ & _ & _ & _ & _ & _ & H7 & H8).
  intros silent loud env.
  refine (conj _ (conj _ (conj _ (conj _ (conj _ (conj _ (conj _ _))))))).
  - refine (H1 [("note", PStr "x");
                ("intro", PDict [("samples", PTensor [1; 100]%N);
                                 ("sample_rate", PInt 44100)])]
               "take" [("samples", PTensor [1; 88200]%N); ("sample_rate", PInt 44100)]
               [] (2, "2 秒") (conj eq_refl (conj eq_refl (conj eq_refl eq_refl)))
               _ eq_refl eq_refl).
    intros k v [E | [E | []]]; injection E as <- <-.
    + left. reflexivity.
    + right. exists [("samples", PTensor [1; 100]%N); ("sample_rate", PInt 44100)].
      exists (0, "0 秒"). repeat split. cbn. lia.
  - exact (H2 [("samples", PTensor [1; 100]%N); ("sample_rate", PInt 44100);
               ("take", PDict [("samples", PTensor [1; 88200]%N);
                               ("sample_rate", PInt 44100)])]
              (PTensor [1; 100]%N) [1%N] 100%N 44100
              eq_refl (or_introl eq_refl) eq_refl eq_refl eq_refl).
  - exact (H3 [("audio", PDict [("samples", PTensor [1; 100]%N);
                                ("sample_rate", PInt 44100)]);
               ("take", PDict [("samples", PTensor [1; 88200]%N);
                               ("sample_rate", PInt 44100)])]
              (PDict [("samples", PTensor [1; 100]%N); ("sample_rate", PInt 44100)])
              "0 秒" eq_refl eq_refl eq_refl).
  - exact (H4 [("filename", PStr "x.wav");
               ("take", PDict [("samples", PTensor [1; 88200]%N);
                               ("sample_rate", PInt 44100)])]
              "x.wav" "错误: 文件不存在: x.wav" eq_refl eq_refl eq_refl eq_refl).
  - exact (H5 [("rate", PInt 44100); ("data", PNdarray [100]%N);
               ("take", PDict [("samples", PTensor [1; 88200]%N);
                               ("sample_rate", PInt 44100)])]
              (PNdarray [100]%N) [] 100%N 44100
              eq_refl eq_refl eq_refl eq_refl eq_refl (or_intror eq_refl)
              eq_refl eq_refl).
  - exact (H6 "clip" (PNdarray [100]%N) [] 100%N 44100
              [("take", PDict [("samples", PTensor [1; 88200]%N);
                               ("sample_rate", PInt 44100)])]
              (conj eq_refl (conj eq_refl (conj eq_refl eq_refl)))
              (or_intror eq_refl) eq_refl eq_refl).
  - exact (H7 sample_librosa (PNdarray [100]%N) (0, "0 秒") I eq_refl eq_refl).
  - exact (H8 sample_librosa (PNdarray [0; 100]%N)
              (IndexError "index 0 is out of bounds for axis 0 with size 0")
              I eq_refl eq_refl).
Defined.

(** ** Samples that are neither a tensor nor an array *)




(** * Further properties of the handlers *)

(** ** The file handler when no backend succeeds *)

(** X1.  For an existing file on which the torchaudio block fails and the
    librosa and soundfile blocks fail or are not installed, the result is
    [(0, "错误: 无法加载音频文件: <path>")]: the text names the path and none
    of the errors of the backends. *)
Theorem all_backends_fail (env : Env) (audio_file : string)
  (Hexists : path_exists env audio_file = true)
  (Htorch : attempt (GetAudioDuration.try_torchaudio env audio_file) = None)
  (Hlibrosa : match librosa env with
              | Some L => attempt (GetAudioDuration.try_librosa L audio_file)
              | None => None
              end = None)
  (Hsf : match sf env with
         | Some F => attempt (GetAudioDuration.try_soundfile env F audio_file)
         | None => None
         end = None) :
  GetAudioDuration.get_duration env audio_file
  = Ret (0, "错误: 无法加载音频文件: " ++ audio_file).
Proof.
  unfold GetAudioDuration.get_duration, GetAudioDuration.body.
  rewrite Hexists. cbn [negb]. unfold GetAudioDuration.backends.
  now rewrite Htorch, Hlibrosa, Hsf.
Qed.

Lemma all_backends_fail_witness :
  GetAudioDuration.get_duration (with_librosa None studio_env) "b.mp3"
  = Ret (0, "错误: 无法加载音频文件: b.mp3").
Proof.
  exact (all_backends_fail (with_librosa None studio_env) "b.mp3"
           eq_refl eq_refl eq_refl eq_refl).
Defined.

(** X2.  What torchaudio loads is not trusted: a sample rate of 0, or a
    waveform without an axis 1, makes its block fail like a load error, and
    the handler answers as if torchaudio had raised, from the next
    backends. *)
Theorem unusable_torchaudio_load_is_skipped (env : Env) (audio_file : string)
  (waveform : list N) (sample_rate : Z) (e : exn)
  (Hload : torchaudio_load env audio_file = Ret (waveform, sample_rate))
  (Hunusable : sample_rate = 0 \/ nth_error waveform 1 = None) :
  attempt (GetAudioDuration.try_torchaudio env audio_file) = None /\
  GetAudioDuration.get_duration env audio_file
  = GetAudioDuration.get_duration (with_torchaudio (fun _ => Raise e) env) audio_file.
Proof.
  assert (H : attempt (GetAudioDuration.try_torchaudio env audio_file) = None).
  { unfold GetAudioDuration.try_torchaudio. rewrite Hload. cbn [bind].
    unfold GetAudioDuration.size1.
    destruct Hunusable as [-> | ->]; [| reflexivity].
    now destruct (nth_error waveform 1). }
  split; [exact H |].
  unfold GetAudioDuration.get_duration, GetAudioDuration.body,
    GetAudioDuration.backends.
  rewrite H. reflexivity.
Qed.

Lemma unusable_torchaudio_load_is_skipped_witness :
  let env := with_torchaudio (fun _ => Ret ([2; 100000]%N, 0)) studio_env in
  GetAudioDuration.get_duration env "c.ogg"
  = GetAudioDuration.get_duration
      (with_torchaudio (fun _ => Raise (RuntimeError "unsupported format")) env)
      "c.ogg".
Proof.
  exact (proj2 (unusable_torchaudio_load_is_skipped
                  (with_torchaudio (fun _ => Ret ([2; 100000]%N, 0)) studio_env)
                  "c.ogg" [2; 100000]%N 0 (RuntimeError "unsupported format")
                  eq_refl (or_introl eq_refl))).
Defined.

(** ** Delegation to the value under [audio] *)

(** X3.  A mapping with an [audio] key, on which the [samples] /
    [sample_rate] pair does not return, gives exactly what the handler gives
    on the value under [audio]; its other keys (a filename, other rate or
    data names, nested mappings) are not looked at. *)
Theorem audio_key_delegates (env : Env) (items : list (string * pyval))
  (inner : pyval)
  (Haudio : GDA.lookup "audio" items = Some inner)
  (Hpair : GDA.direct_pair env items = None) :
  GDA.get_duration env (PDict items) = GDA.get_duration env inner.
Proof.
  rewrite get_duration_unfold.
  unfold GDA.body, GDA.structural, GDA.after_direct_pair, GDA.audio_key.
  cbn [GDA.calls_of]. rewrite Hpair, lookup_calls, Haudio.
  cbn [option_map GDA.orelse]. apply handler_of_handler_result.
Qed.

Lemma audio_key_delegates_witness :
  let inner := PDict [("samples", PTensor [1; 2; 100000]%N); ("sample_rate", PInt 44100)] in
  GDA.get_duration studio_env (PDict [("filename", PStr "c.ogg"); ("audio", inner)])
  = GDA.get_duration studio_env inner.
Proof.
  exact (audio_key_delegates studio_env
           [("filename", PStr "c.ogg");
            ("audio", PDict [("samples", PTensor [1; 2; 100000]%N);
                             ("sample_rate", PInt 44100)])]
           (PDict [("samples", PTensor [1; 2; 100000]%N); ("sample_rate", PInt 44100)])
           eq_refl eq_refl).
Defined.

(** ** Errors of the [samples] / [sample_rate] pair *)

(** X4.  An exception raised while the pair is measured ends the handler:
    whatever else the mapping holds, the result is the error tuple of that
    exception, and no later strategy is tried.  So a rate of 0 gives
    [(0, "错误: division by zero")], and a tensor without axes the error of
    [size(-1)]. *)
Theorem direct_pair_error_is_final (env : Env) (items : list (string * pyval))
  (samples rate : pyval) (shape : list N)
  (Hsamples : GDA.lookup "samples" items = Some samples)
  (Hbuffer : samples = PTensor shape \/ samples = PNdarray shape)
  (Hrate : GDA.lookup "sample_rate" items = Some rate) :
  (forall e,
     (n <- GDA.last_axis samples shape ;; seconds_result env n rate) = Raise e ->
     GDA.get_duration env (PDict items) = Ret (0, "错误: " ++ exn_msg e)) /\
  (shape <> [] -> rate = PInt 0 ->
   GDA.get_duration env (PDict items) = Ret (0, "错误: division by zero")) /\
  (samples = PTensor [] ->
   GDA.get_duration env (PDict items)
   = Ret (0, "错误: Dimension specified as -1 but tensor has no dimensions")).
Proof.
  assert (Hgen : forall e,
    (n <- GDA.last_axis samples shape ;; seconds_result env n rate) = Raise e ->
    GDA.get_duration env (PDict items) = Ret (0, "错误: " ++ exn_msg e)).
  { intros e He. rewrite get_duration_unfold.
    rewrite (body_direct_pair env items _ (Raise e)); [reflexivity |].
    unfold GDA.direct_pair. rewrite Hsamples, Hrate.
    destruct Hbuffer as [-> | ->]; cbn [GDA.buffer_duration]; now rewrite He. }
  split; [exact Hgen | split].
  - intros Hshape ->.
    apply (Hgen (ZeroDivisionError "division by zero")).
    unfold GDA.last_axis. destruct (rev shape) as [| n rest] eqn:E.
    + apply (f_equal (@rev N)) in E. rewrite rev_involutive in E.
      now destruct Hshape.
    + reflexivity.
  - intros ->. destruct Hbuffer as [E | E]; [| discriminate E].
    injection E as <-.
    exact (Hgen (IndexError "Dimension specified as -1 but tensor has no dimensions")
             eq_refl).
Qed.

Lemma direct_pair_error_is_final_witness :
  GDA.get_duration studio_env
    (PDict [("samples", PNdarray [2; 100000]%N); ("sample_rate", PInt 0);
            ("filename", PStr "c.ogg")])
  = Ret (0, "错误: division by zero").
Proof.
  refine (proj1 (proj2 (direct_pair_error_is_final studio_env
                  [("samples", PNdarray [2; 100000]%N); ("sample_rate", PInt 0);
                   ("filename", PStr "c.ogg")]
                  (PNdarray [2; 100000]%N) (PInt 0) [2; 100000]%N
                  eq_refl (or_intror eq_refl) eq_refl)) _ eq_refl).
  discriminate.
Defined.

(** ** A file name that names no file *)

(** X5.  A mapping that is resolved by its [filename] reports a missing
    file with the message of the file handler, path included, and not as an
    unresolved structure. *)
Theorem filename_of_missing_file (env : Env) (items : list (string * pyval))
  (p : string)
  (Hfilename : GDA.lookup "filename" items = Some (PStr p))
  (Haudio : GDA.lookup "audio" items = None)
  (Hpair : GDA.direct_pair env items = None)
  (Hmissing : path_exists env p = false) :
  GDA.get_duration env (PDict items) = Ret (0, "错误: 文件不存在: " ++ p).
Proof.
  rewrite get_duration_unfold.
  unfold GDA.body, GDA.structural, GDA.after_direct_pair, GDA.audio_key.
  cbn [GDA.calls_of]. rewrite Hpair, lookup_calls, Haudio.
  cbn [option_map GDA.orelse]. unfold GDA.filename_key. rewrite Hfilename.
  cbn [GDA.orelse]. unfold GetAudioDuration.get_duration, GetAudioDuration.body.
  now rewrite Hmissing.
Qed.

Lemma filename_of_missing_file_witness :
  GDA.get_duration studio_env
    (PDict [("filename", PStr "d.flac"); ("sample_rate", PInt 44100)])
  = Ret (0, "错误: 文件不存在: d.flac").
Proof.
  exact (filename_of_missing_file studio_env
           [("filename", PStr "d.flac"); ("sample_rate", PInt 44100)] "d.flac"
           eq_refl eq_refl eq_refl eq_refl).
Defined.

(** ** Inputs that are no mapping *)

(** X6.  An input that is neither a mapping, a tensor nor an array (None,
    a number, a string, a list, and also a tuple [(samples, rate)] given
    directly) is never measured: with or without librosa the result is the
    error tuple that names its type and the first 50 characters of its
    text. *)
Theorem scalar_input_is_unresolved (env : Env) (audio : pyval)
  (Hnot_mapping : forall items, audio <> PDict items)
  (Hnot_buffer : GDA.is_buffer audio = false) :
  GDA.get_duration env audio
  = Ret (0, "错误: 无法解析音频格式: " ++ type_repr audio ++ ", 内容: "
            ++ GDA.take_chars 50 (py_str env audio)).
Proof.
  rewrite get_duration_unfold. unfold GDA.body, GDA.fallback.
  destruct audio; try discriminate Hnot_buffer;
    try (now destruct (Hnot_mapping items));
    now destruct (librosa env).
Qed.

Lemma scalar_input_is_unresolved_witness :
  GDA.get_duration (with_librosa (Some sample_librosa) bare_env)
    (PTuple [PTensor [1; 88200]%N; PInt 44100])
  = Ret (0, "错误: 无法解析音频格式: <class 'tuple'>, 内容: tuple").
Proof.
  refine (scalar_input_is_unresolved (with_librosa (Some sample_librosa) bare_env)
            (PTuple [PTensor [1; 88200]%N; PInt 44100]) _ eq_refl).
  discriminate.
Defined.

(** ** Tuples among the values of a mapping *)

(** X8.  When the loop over the values is reached and the first value that
    it does not pass over is a 2-tuple of a tensor or array with [n] samples
    along its last axis, [n] below [2 ^ 53], and a positive integer rate
    [r], the result is [floor(n / r)] seconds, 0 included: unlike the result
    of a nested mapping, that of a tuple is not asked to be positive. *)
Theorem tuple_value_is_measured (env : Env) (before tl : list (string * pyval))
  (k : string) (samples : pyval) (front : list N) (n : N) (r : Z)
  (Hreach : GDA.reaches_values env (before ++ (k, PTuple [samples; PInt r]) :: tl))
  (Hbefore : forall k' v, In (k', v) before -> GDA.passed_over env v)
  (Hbuffer : samples = PTensor (front ++ [n]) \/ samples = PNdarray (front ++ [n]))
  (Hpos : 0 < r)
  (Hexact : Z.of_N n < 2 ^ 53) :
  GDA.get_duration env (PDict (before ++ (k, PTuple [samples; PInt r]) :: tl))
  = Ret (Z.of_N n / r, str_of_int (Z.of_N n / r) ++ " 秒").
Proof.
  now apply (tuple_among_values env before tl k samples front n r).
Qed.

Lemma tuple_value_is_measured_witness :
  GDA.get_duration bare_env
    (PDict [("name", PStr "clip");
            ("clip", PTuple [PTensor [1; 100]%N; PInt 44100]);
            ("take", PTuple [PTensor [1; 88200]%N; PInt 44100])])
  = Ret (0, "0 秒").
Proof.
  refine (tuple_value_is_measured bare_env [("name", PStr "clip")]
            [("take", PTuple [PTensor [1; 88200]%N; PInt 44100])]
            "clip" (PTensor [1; 100]%N) [1%N] 100%N 44100
            (conj eq_refl (conj eq_refl (conj eq_refl eq_refl)))
            _ (or_introl eq_refl) eq_refl eq_refl).
  intros k' v [E | []]. injection E as <- <-. left. reflexivity.
Defined.



(** ** Mappings that are not resolved *)

(** X10.  A mapping whose values are all passed over (plain values, nested
    mappings that resolve to no positive duration, tuples that are
    skipped), and which has no [audio] key and no string under [filename],
    is unresolved with or without librosa: the result is the error tuple
    with the keys of this mapping, and the errors of the nested mappings
    and of the tuples are not shown. *)
Theorem unmeasurable_mapping_is_unresolved (env : Env)
  (items : list (string * pyval))
  (Hvalues : forall k v, In (k, v) items -> GDA.passed_over env v)
  (Haudio : GDA.lookup "audio" items = None)
  (Hfilename : forall p, GDA.lookup "filename" items <> Some (PStr p)) :
  GDA.get_duration env (PDict items)
  = Ret (0, "错误: 无法解析音频格式: <class 'dict'>, 内容: "
            ++ py_str env (GDA.keys_list items)).
Proof.
  apply values_passed_over; [| exact Hvalues].
  now apply passed_over_reaches_values.
Qed.

Lemma unmeasurable_mapping_is_unresolved_witness :
  GDA.get_duration (with_librosa (Some sample_librosa) bare_env)
    (PDict [("sample_rate", PInt 44100);
            ("meta", PDict [("samples", PTensor [1; 88200]%N); ("sample_rate", PInt 0)])])
  = Ret (0, "错误: 无法解析音频格式: <class 'dict'>, 内容: ['sample_rate', 'meta']").
Proof.
  refine (unmeasurable_mapping_is_unresolved
            (with_librosa (Some sample_librosa) bare_env)
            [("sample_rate", PInt 44100);
             ("meta", PDict [("samples", PTensor [1; 88200]%N); ("sample_rate", PInt 0)])]
            _ eq_refl _).
  - intros k v [E | [E | []]]; injection E as <- <-.
    + left. reflexivity.
    + right. left. eexists _, (0, _). repeat split. cbn. lia.
  - intros p. discriminate.
Defined.

(** ** The label of DisplayIntegerValue *)

Lemma to_int_proper (z : Z) :
  Z.to_int z <> Decimal.Pos Decimal.Nil /\ Z.to_int z <> Decimal.Neg Decimal.Nil.
Proof.
  destruct z as [| p | p]; cbn; split; try discriminate;
    intros H; injection H as H; exact (DecimalPos.Unsigned.to_uint_nonnil p H).
Qed.

(** Reading back what [str] wrote. *)
Lemma int_of_str_of_int (z : Z) :
  option_map Z.of_int (NilZero.int_of_string (str_of_int z)) = Some z.
Proof.
  unfold str_of_int. destruct (to_int_proper z) as [Hp Hn].
  rewrite (NilZero.isi _ Hp Hn). cbn [option_map]. f_equal.
  apply DecimalZ.of_to.
Qed.

Lemma append_cancel_l (p a b : string) : p ++ a = p ++ b -> a = b.
Proof.
  induction p as [| c p IH]; cbn; intros H; [exact H |].
  injection H as H. now apply IH.
Qed.

(** X11.  The payload holds one text, the prefix followed by the decimal
    writing of the value: read as an integer, what follows the prefix is the
    value again, so under one prefix two values have the same label only if
    they are equal. *)
Theorem display_label_determines_value (prefix : string) (value value' : Z) :
  (exists digits,
     DisplayIntegerValue.ui_text (DisplayIntegerValue.display_value value prefix)
     = [prefix ++ digits] /\
     option_map Z.of_int (NilZero.int_of_string digits) = Some value) /\
  (DisplayIntegerValue.display_value value prefix
   = DisplayIntegerValue.display_value value' prefix <-> value = value').
Proof.
  split.
  - exists (str_of_int value). split; [reflexivity | apply int_of_str_of_int].
  - split; [| now intros ->].
    unfold DisplayIntegerValue.display_value. intros H.
    injection H as H. apply append_cancel_l in H.
    apply (f_equal (fun s => option_map Z.of_int (NilZero.int_of_string s))) in H.
    rewrite !int_of_str_of_int in H. now injection H.
Qed.

(** ** The text agrees with the seconds *)

Section Labelled.

Variable env : Env.

Lemma labelled_raise (e : exn) : labelled_outcome (Raise e).
Proof. intros r H. discriminate H. Qed.

Lemma labelled_none : labelled_strategy None.
Proof. intros c H. discriminate H. Qed.

Lemma labelled_some (c : outcome result) :
  labelled_outcome c -> labelled_strategy (Some c).
Proof. intros H c' E. injection E as <-. exact H. Qed.

Lemma labelled_orelse (a b : option (outcome result)) :
  labelled_strategy a -> labelled_strategy b -> labelled_strategy (GDA.orelse a b).
Proof. intros Ha Hb. destruct a; [exact Ha | exact Hb]. Qed.

Lemma labelled_handler (c : outcome result) :
  labelled_outcome c -> labelled_outcome (handler c).
Proof.
  intros H r E. destruct c as [r' | e]; cbn in E; injection E as <-.
  - now apply H.
  - right. cbn. split; [reflexivity | now exists (exn_msg e)].
Qed.

Lemma labelled_seconds_result (n : N) (rate : pyval) :
  labelled_outcome (seconds_result env n rate).
Proof.
  intros r H. unfold seconds_result in H.
  destruct (int_truediv env (Z.of_N n) rate) as [z |]; [| discriminate H].
  injection H as <-. now left.
Qed.

Lemma labelled_buffer_duration (data rate : pyval) :
  labelled_strategy (GDA.buffer_duration env data rate).
Proof.
  destruct data; cbn [GDA.buffer_duration]; try apply labelled_none;
    apply labelled_some;
    (destruct (GDA.last_axis _ shape) as [n | e]; cbn [bind];
     [apply labelled_seconds_result | apply labelled_raise]).
Qed.

Lemma labelled_file_handler (audio_file : string) :
  labelled_outcome (GetAudioDuration.get_duration env audio_file).
Proof.
  unfold GetAudioDuration.get_duration. apply labelled_handler.
  unfold GetAudioDuration.body.
  destruct (negb (path_exists env audio_file)); [apply labelled_raise |].
  assert (Ht : forall r, attempt (GetAudioDuration.try_torchaudio env audio_file)
                         = Some r -> well_formed_result r).
  { intros r H. unfold GetAudioDuration.try_torchaudio in H.
    destruct (torchaudio_load env audio_file) as [[w sr] |]; [| discriminate H].
    cbn [bind] in H. destruct (GetAudioDuration.size1 w) as [n |]; [| discriminate H].
    cbn [bind] in H.
    destruct (seconds_result env n (PInt sr)) as [r' |] eqn:Er; [| discriminate H].
    injection H as <-. exact (labelled_seconds_result n (PInt sr) r' Er). }
  assert (Hl : forall L r,
                 attempt (GetAudioDuration.try_librosa L audio_file) = Some r ->
                 well_formed_result r).
  { intros L r H. unfold GetAudioDuration.try_librosa in H.
    destruct (lr_load L audio_file) as [[y sr] |]; [| discriminate H].
    cbn [bind] in H.
    destruct (lr_get_duration L y sr) as [d |]; [| discriminate H].
    injection H as <-. now left. }
  assert (Hs : forall F r,
                 attempt (GetAudioDuration.try_soundfile env F audio_file) = Some r ->
                 well_formed_result r).
  { intros F r H. unfold GetAudioDuration.try_soundfile in H.
    destruct (sf_read F audio_file) as [[data sr] |]; [| discriminate H].
    cbn [bind] in H. destruct (GetAudioDuration.len data) as [n |]; [| discriminate H].
    cbn [bind] in H.
    destruct (seconds_result env n (PInt sr)) as [r' |] eqn:Er; [| discriminate H].
    injection H as <-. exact (labelled_seconds_result n (PInt sr) r' Er). }
  unfold GetAudioDuration.backends. cbn [GetAudioDuration.first_success].
  destruct (attempt (GetAudioDuration.try_torchaudio env audio_file)) as [r |] eqn:Et.
  { intros r' E. injection E as <-. now apply Ht. }
  destruct (librosa env) as [L |].
  - destruct (attempt (GetAudioDuration.try_librosa L audio_file)) as [r |] eqn:El.
    { intros r' E. injection E as <-. now apply (Hl L). }
    destruct (sf env) as [F |]; [| apply labelled_raise].
    destruct (attempt (GetAudioDuration.try_soundfile env F audio_file)) as [r |] eqn:Es;
      [| apply labelled_raise].
    intros r' E. injection E as <-. now apply (Hs F).
  - destruct (sf env) as [F |]; [| apply labelled_raise].
    destruct (attempt (GetAudioDuration.try_soundfile env F audio_file)) as [r |] eqn:Es;
      [| apply labelled_raise].
    intros r' E. injection E as <-. now apply (Hs F).
Qed.

Variable items : list (string * pyval).

Lemma labelled_direct_pair : labelled_strategy (GDA.direct_pair env items).
Proof.
  unfold GDA.direct_pair.
  destruct (GDA.lookup "samples" items) as [samples |]; [| apply labelled_none].
  destruct (GDA.lookup "sample_rate" items) as [rate |]; [| apply labelled_none].
  apply labelled_buffer_duration.
Qed.

Lemma labelled_filename_key : labelled_strategy (GDA.filename_key env items).
Proof.
  unfold GDA.filename_key.
  destruct (GDA.lookup "filename" items) as [[] |]; try apply labelled_none.
  apply labelled_some, labelled_file_handler.
Qed.

Lemma labelled_scan_data (rate : pyval) (keys : list string) :
  labelled_strategy (GDA.scan_data env items rate keys).
Proof.
  induction keys as [| key tl IH]; [apply labelled_none |].
  cbn [GDA.scan_data]. destruct (GDA.lookup key items) as [data |]; [| exact IH].
  apply labelled_orelse; [apply labelled_buffer_duration | exact IH].
Qed.

Lemma labelled_scan_rate (data : pyval) (keys : list string) :
  labelled_strategy (GDA.scan_rate env items data keys).
Proof.
  induction keys as [| key tl IH]; [apply labelled_none |].
  cbn [GDA.scan_rate]. destruct (GDA.lookup key items) as [rate |]; [| exact IH].
  apply labelled_orelse; [apply labelled_buffer_duration | exact IH].
Qed.

Lemma labelled_scan_keys (keys : list string) :
  labelled_strategy (GDA.scan_keys env items keys).
Proof.
  induction keys as [| key tl IH]; [apply labelled_none |].
  cbn [GDA.scan_keys]. apply labelled_orelse; [| exact IH].
  destruct (GDA.lookup key items) as [v |]; [| apply labelled_none].
  destruct (GDA.mem key ["samplerate"; "rate"; "sr"]);
    [apply labelled_scan_data |].
  destruct (GDA.mem key ["audio_data"; "waveform"]);
    [apply labelled_scan_rate | apply labelled_none].
Qed.

End Labelled.

Lemma labelled_fallback (env : Env) (audio : pyval) :
  labelled_outcome (GDA.fallback env audio).
Proof.
  unfold GDA.fallback.
  destruct (librosa env) as [L |]; [| apply labelled_raise].
  destruct (GDA.last_resort L audio) as [r |] eqn:E; [| apply labelled_raise].
  cbn [attempt]. intros r' Er. injection Er as <-.
  assert (Hest : forall shape rate, labelled_outcome (GDA.estimate L shape rate)).
  { intros shape rate r0 H. unfold GDA.estimate in H.
    destruct (GDA.first_channel shape) as [y |]; [| discriminate H].
    cbn [bind] in H.
    destruct (lr_get_duration L y rate) as [d |]; [| discriminate H].
    injection H as <-. now left. }
  destruct audio; cbn [GDA.last_resort] in E; try discriminate E.
  - exact (Hest _ _ r E).
  - destruct (GDA.first_buffer items) as [shape |]; [| discriminate E].
    exact (Hest _ _ r E).
Qed.

Lemma labelled_explore (env : Env) (items : list (string * pyval)) :
  (forall k v, In (k, v) items -> labelled_outcome (GDA.get_duration env v)) ->
  labelled_strategy (GDA.explore env items (GDA.calls env items)).
Proof.
  induction items as [| [k v] tl IH]; intros Hall; [apply labelled_none |].
  assert (Htl : labelled_strategy (GDA.explore env tl (GDA.calls env tl))).
  { apply IH. intros k' v' Hin. apply (Hall k' v'). now right. }
  pose proof (Hall k v (or_introl eq_refl)) as Hrec.
  cbn [GDA.calls map fst snd GDA.explore]. fold (GDA.calls env tl).
  destruct v as [ | | | | | | | l | nested]; try exact Htl.
  - destruct l as [| samples [| rate [| x l]]]; try exact Htl.
    pose proof (labelled_buffer_duration env samples rate) as Hb.
    destruct (GDA.buffer_duration env samples rate) as [[r |] |]; try exact Htl.
    apply labelled_some. now apply Hb.
  - destruct (GDA.get_duration env (PDict nested)) as [r | e];
      [| apply labelled_some, labelled_raise].
    destruct (0 <? fst r); [| exact Htl].
    apply labelled_some. exact Hrec.
Qed.

Lemma labelled_audio_handler (env : Env) (audio : pyval) :
  labelled_outcome (GDA.get_duration env audio).
Proof.
  induction audio as [v Hleaf | items IH] using pyval_dict_ind.
  - rewrite get_duration_unfold. apply labelled_handler.
    unfold GDA.body. destruct v; try apply labelled_fallback.
    now destruct (Hleaf items).
  - rewrite get_duration_unfold. apply labelled_handler.
    unfold GDA.body. cbn [GDA.calls_of].
    assert (Hs : labelled_strategy (GDA.structural env items (GDA.calls env items))).
    { unfold GDA.structural, GDA.after_direct_pair.
      apply labelled_orelse; [| apply labelled_orelse; [| apply labelled_orelse;
        [| apply labelled_orelse]]].
      - apply labelled_direct_pair.
      - unfold GDA.audio_key. rewrite lookup_calls.
        destruct (GDA.lookup "audio" items) as [v |] eqn:E; [| apply labelled_none].
        apply labelled_some. cbn [option_map].
        exact (IH "audio" v (lookup_In _ _ _ E)).
      - apply labelled_filename_key.
      - apply labelled_scan_keys.
      - now apply labelled_explore. }
    destruct (GDA.structural env items (GDA.calls env items)) as [c |].
    + now apply Hs.
    + apply labelled_fallback.
Qed.

(** X12.  Whatever the input, the file system and the libraries are, the
    two components of a result agree: either the text is
    [f"{seconds} 秒"] for the very seconds returned, or the seconds are 0
    and the text is ["错误: "] followed by a message.  This holds through the
    recursion on nested mappings and the delegation to the file handler. *)
Theorem result_text_agrees_with_seconds (env : Env) (audio_file : string)
  (audio : pyval) :
  (exists r, GetAudioDuration.get_duration env audio_file = Ret r /\
     (snd r = str_of_int (fst r) ++ " 秒" \/
      (fst r = 0 /\ exists m, snd r = "错误: " ++ m))) /\
  (exists r, GDA.get_duration env audio = Ret r /\
     (snd r = str_of_int (fst r) ++ " 秒" \/
      (fst r = 0 /\ exists m, snd r = "错误: " ++ m))).
Proof.
  split.
  - destruct (proj1 (handlers_returning env audio_file audio)) as [r Hr].
    exists r. split; [exact Hr |]. exact (labelled_file_handler env audio_file r Hr).
  - destruct (proj2 (handlers_returning env audio_file audio)) as [r Hr].
    exists r. split; [exact Hr |]. exact (labelled_audio_handler env audio r Hr).
Qed.

(** ** A mapping around a mapping *)

(** X13.  A mapping that holds nothing but one nested mapping, under any
    key, is transparent when the nested mapping resolves to a positive
    duration: the result is that of the nested mapping, text included. *)
Theorem wrapper_is_transparent (env : Env) (k : string)
  (nested : list (string * pyval)) (r : result)
  (Hnested : GDA.get_duration env (PDict nested) = Ret r)
  (Hpos : 0 < fst r) :
  GDA.get_duration env (PDict [(k, PDict nested)]) = Ret r.
Proof.
  assert (Hnb : forall k' v, In (k', v) [(k, PDict nested)] -> GDA.is_buffer v = false).
  { intros k' v [E | []]. now injection E as _ <-. }
  rewrite get_duration_unfold.
  unfold GDA.body, GDA.structural, GDA.after_direct_pair, GDA.audio_key.
  cbn [GDA.calls_of].
  rewrite (direct_pair_none env _ Hnb), lookup_calls. cbn [GDA.orelse GDA.lookup].
  destruct (String.eqb "audio" k).
  - cbn [option_map GDA.orelse]. now rewrite Hnested.
  - cbn [option_map GDA.orelse].
    assert (Hf : GDA.filename_key env [(k, PDict nested)] = None).
    { unfold GDA.filename_key. cbn [GDA.lookup]. now destruct (String.eqb "filename" k). }
    rewrite Hf, (scan_keys_none env _ Hnb). cbn [GDA.orelse].
    cbn [GDA.calls map fst snd GDA.explore]. rewrite Hnested.
    destruct (Z.ltb_spec 0 (fst r)) as [_ | Hle]; [reflexivity | lia].
Qed.

Lemma wrapper_is_transparent_witness :
  GDA.get_duration bare_env
    (PDict [("waveform",
             PDict [("samples", PNdarray [2; 100000]%N); ("sample_rate", PInt 44100)])])
  = Ret (2, "2 秒").
Proof.
  exact (wrapper_is_transparent bare_env "waveform"
           [("samples", PNdarray [2; 100000]%N); ("sample_rate", PInt 44100)]
           (2, "2 秒") eq_refl eq_refl).
Defined.
